(** * hnswlib-wasm-node: persistence layer (src/index.js)

    Shallow embedding of the save/load code of [src/index.js]:
    - JavaScript values ([jsval]) with JavaScript numbers as rationals plus
      the three non-finite values ([jsnum]), truthiness ([||]) and property
      access as the code uses them;
    - Node's [Buffer] as a list of bytes (each a [Z] in [0,256)) with the
      bounds checks of [readUInt8], [readUInt32LE], [readFloatLE],
      [writeUInt8], [writeUInt32LE], [writeFloatLE] and [fill];
    - IEEE-754 binary32 encoding and decoding of numbers (the conversion
      performed by [writeFloatLE] / [readFloatLE]);
    - the hnswlib engine as an external collaborator: every call the code
      makes on it ([new HierarchicalNSW], [initIndex], [addPoint]) is
      appended to a log, and an oracle [engine] says whether a call throws;
    - thrown exceptions as a [result] type, with one constructor per error
      message of the source. *)

From Stdlib Require Import ZArith QArith Qround String Ascii List Bool Lia.
Import ListNotations.
Open Scope Z_scope.
Set Warnings "-register-all".
Open Scope string_scope.
Open Scope list_scope.
Open Scope Z_scope.

(* ------------------------------------------------------------------ *)
(** ** JavaScript values *)

(** A JavaScript number: a finite value (a rational; every finite double
    is one) or one of NaN, +Infinity, -Infinity.  Negative zero is
    identified with zero. *)
Inductive jsnum : Type :=
| JFin (q : Q)
| JNaN
| JPosInf
| JNegInf.

(** JavaScript values as they occur in this code: JSON documents, the
    metadata object, logger objects.  Functions are named values. *)
Inductive jsval : Type :=
| JUndef
| JNull
| JBool (b : bool)
| JNum (n : jsnum)
| JStr (s : string)
| JArr (xs : list jsval)
| JObj (props : list (string * jsval))
| JFun (name : string).

(** The integer [z] as a JavaScript number. *)
Definition num_Z (z : Z) : jsval := JNum (JFin (inject_Z z)).

(** ToBoolean: the falsy values are undefined, null, false, 0, NaN and "". *)
Definition truthy (v : jsval) : bool :=
  match v with
  | JUndef | JNull => false
  | JBool b => b
  | JNum (JFin q) => negb (Qeq_bool q 0)
  | JNum JNaN => false
  | JNum _ => true
  | JStr s => negb (String.eqb s EmptyString)
  | JArr _ | JObj _ | JFun _ => true
  end.

(** [a || b] *)
Definition js_or (a b : jsval) : jsval := if truthy a then a else b.

(** [typeof v === 'number'] *)
Definition is_number (v : jsval) : bool :=
  match v with JNum _ => true | _ => false end.

(** [typeof v === 'function'] *)
Definition is_function (v : jsval) : bool :=
  match v with JFun _ => true | _ => false end.

(** [Array.isArray(v)] *)
Definition is_array (v : jsval) : bool :=
  match v with JArr _ => true | _ => false end.

(** [isFinite(n)] on a number *)
Definition num_finite (n : jsnum) : bool :=
  match n with JFin _ => true | _ => false end.

(** Own property lookup in an object literal. *)
Fixpoint assoc (k : string) (ps : list (string * jsval)) : option jsval :=
  match ps with
  | [] => None
  | (k', v) :: ps' => if String.eqb k k' then Some v else assoc k ps'
  end.

(** Thrown exceptions, one constructor per [throw] of the source (and the
    errors thrown by the runtime the code relies on). *)
Inductive exn : Type :=
| TypeError                               (* property read on null/undefined *)
| RangeFault                              (* Buffer access out of bounds *)
| ValueOutOfRange                         (* Buffer write of an out-of-range value *)
| IndexRequired                           (* 'Index parameter is required' *)
| MissingRequiredMethods                  (* 'Invalid index object: missing required methods' *)
| FileTooSmall (len : Z)
| UnsupportedVersion (v : Z)
| HeaderEOF                               (* 'Unexpected end of file while reading header' *)
| InvalidNumDimensions (d : Z)
| InvalidNumVectors (n : Z)
| SizeMismatch (expected got : Z)
| VectorEOF (i : Z)
| DimensionEOF (i j : Z)
| MissingVectorsArray                     (* 'missing or invalid vectors array' *)
| InvalidNumDimensionsField               (* 'invalid numDimensions' (JSON) *)
| InvalidSpaceName (v : jsval)
| InvalidLabel (v : jsval)
| InvalidVector                           (* 'expected array of length ...' *)
| DimensionMismatch (expected got : Z)    (* 'Vector dimension mismatch' *)
| InvalidVectorValue (v : jsval)
| EngineError (msg : string)              (* thrown by hnswlib *)
| RecreateFailed (e : exn)                (* 'Failed to recreate index: ...' *)
| WriteBinaryFailed (e : exn)             (* 'Failed to write binary file: ...' *)
| FilenameNotString                       (* 'Filename must be a non-empty string' *)
| FilenameEmpty                           (* 'Filename cannot be empty' *)
| EmptyIndex                              (* 'Cannot save empty index (no vectors added)' *)
| ExtractFailed (e : exn)                 (* 'Failed to extract vectors from index: ...' *)
| InvalidHnswlibModule                    (* 'Invalid hnswlib module: ...' *)
| FileNotFound (filename : string)        (* 'File not found: ...' *)
| ReadFailed (e : exn)                    (* 'Failed to read file: ...' *)
| InvalidJSONFile                         (* 'Invalid JSON file: ...' *)
| WriteJSONFailed (e : exn)               (* 'Failed to write JSON file: ...' *)
| FsError (msg : string).                 (* rejected by the fs module *)

Inductive result (A : Type) : Type :=
| Ok (a : A)
| Err (e : exn).
Arguments Ok {A} a.
Arguments Err {A} e.

Definition rbind {A B} (m : result A) (k : A -> result B) : result B :=
  match m with Ok a => k a | Err e => Err e end.

Notation "'let!' x := m 'in' k" := (rbind m (fun x => k))
  (at level 200, x name, m at level 100, k at level 200).

(** Property read [v.k]: throws on null and undefined; primitives, arrays
    and functions have none of the properties this code reads. *)
Definition get (v : jsval) (k : string) : result jsval :=
  match v with
  | JUndef | JNull => Err TypeError
  | JObj ps => Ok (match assoc k ps with Some x => x | None => JUndef end)
  | _ => Ok JUndef
  end.

(** A read that cannot throw (the receiver is an object literal). *)
Definition getd (v : jsval) (k : string) : jsval :=
  match get v k with Ok x => x | Err _ => JUndef end.

(** ToNumber ([+v]).  Strings are read as unsigned decimal integers (the
    empty string is 0); other numeric string syntaxes and objects with a
    custom [valueOf] are not part of the model and give NaN. *)
Fixpoint dec_digits (s : string) (acc : Z) : option Z :=
  match s with
  | EmptyString => Some acc
  | String c s' =>
      let n := Z.of_nat (nat_of_ascii c) - 48 in
      if (0 <=? n) && (n <=? 9) then dec_digits s' (10 * acc + n) else None
  end.

Definition to_number (v : jsval) : jsnum :=
  match v with
  | JUndef => JNaN
  | JNull => JFin 0
  | JBool b => JFin (if b then 1 else 0)
  | JNum n => n
  | JStr s => match dec_digits s 0 with Some z => JFin (inject_Z z) | None => JNaN end
  | _ => JNaN
  end.

(* ------------------------------------------------------------------ *)
(** ** IEEE-754 binary32 ([writeFloatLE] / [readFloatLE]) *)

(** [n/d] rounded to the nearest integer, ties to even ([n >= 0], [d > 0]). *)
Definition round_ne (n d : Z) : Z :=
  let q := n / d in
  let r := n mod d in
  if 2 * r <? d then q
  else if d <? 2 * r then q + 1
  else if Z.even q then q else q + 1.

(** [n/d * 2^k] as a fraction. *)
Definition scale2 (n d k : Z) : Z * Z :=
  if 0 <=? k then (n * 2 ^ k, d) else (n, d * 2 ^ (- k)).

(** [floor (log2 (n/d))] for [n, d > 0]. *)
Definition floor_log2_Q (n d : Z) : Z :=
  let e := Z.log2 n - Z.log2 d in
  let '(a, b) := scale2 1 1 e in
  if a * d <=? n * b then e else e - 1.

(** Bits 0..30 of the binary32 encoding of the positive value [n/d]:
    subnormal, normal, or infinity on overflow. *)
Definition f32_mag (n d : Z) : Z :=
  let e := floor_log2_Q n d in
  if e <? -126 then
    let '(a, b) := scale2 n d 149 in round_ne a b
  else
    let '(a, b) := scale2 n d (23 - e) in
    Z.min ((e + 127) * 2 ^ 23 + (round_ne a b - 2 ^ 23)) (255 * 2 ^ 23).

(** The 32-bit pattern that [writeFloatLE] stores for a number. *)
Definition f32_bits (x : jsnum) : Z :=
  match x with
  | JNaN => 2143289344            (* 0x7fc00000 *)
  | JPosInf => 2139095040         (* 0x7f800000 *)
  | JNegInf => 4286578688         (* 0xff800000 *)
  | JFin q =>
      let n := Qnum q in
      if n =? 0 then 0
      else
        let mag := f32_mag (Z.abs n) (Zpos (Qden q)) in
        if n <? 0 then 2 ^ 31 + mag else mag
  end.

(** The number that [readFloatLE] returns for a 32-bit pattern. *)
Definition f32_of_bits (w : Z) : jsnum :=
  let neg := Z.testbit w 31 in
  let E := Z.land (Z.shiftr w 23) 255 in
  let M := Z.land w (2 ^ 23 - 1) in
  if E =? 255 then
    (if M =? 0 then (if neg then JNegInf else JPosInf) else JNaN)
  else
    let sig := if E =? 0 then M else M + 2 ^ 23 in
    let ex := (if E =? 0 then 1 else E) - 150 in
    let mag : Q :=
      if 0 <=? ex then inject_Z (sig * 2 ^ ex) else sig # Z.to_pos (2 ^ (- ex)) in
    JFin (Qred (if neg then Qopp mag else mag)).

(** [Math.fround]: the number a binary32 write followed by a read gives. *)
Definition fround (x : jsnum) : jsnum := f32_of_bits (f32_bits x).

(* ------------------------------------------------------------------ *)
(** ** Node Buffers *)

(** A buffer: its bytes, each in [0, 256). *)
Definition buffer := list Z.

Definition blen (b : buffer) : Z := Z.of_nat (List.length b).

(** Little-endian bytes of the low [k] bytes of [z]. *)
Fixpoint le_bytes (k : nat) (z : Z) : list Z :=
  match k with
  | O => []
  | S k' => z mod 256 :: le_bytes k' (z / 256)
  end.

(** Little-endian value of a byte sequence. *)
Fixpoint le_value (bs : list Z) : Z :=
  match bs with
  | [] => 0
  | b :: bs' => b + 256 * le_value bs'
  end.

(** [k] bytes at offset [off], or the bounds error. *)
Definition read_bytes (b : buffer) (off : Z) (k : nat) : result (list Z) :=
  if (0 <=? off) && (off + Z.of_nat k <=? blen b)
  then Ok (firstn k (skipn (Z.to_nat off) b))
  else Err RangeFault.

Definition readUInt8 (b : buffer) (off : Z) : result Z :=
  let! bs := read_bytes b off 1 in Ok (le_value bs).

Definition readUInt32LE (b : buffer) (off : Z) : result Z :=
  let! bs := read_bytes b off 4 in Ok (le_value bs).

Definition readFloatLE (b : buffer) (off : Z) : result jsnum :=
  let! bs := read_bytes b off 4 in Ok (f32_of_bits (le_value bs)).

(** Overwrite the bytes at [off] with [bs]. *)
Definition buf_set (b : buffer) (off : nat) (bs : list Z) : buffer :=
  firstn off b ++ bs ++ skipn (off + List.length bs) b.

Definition write_bytes (b : buffer) (off : Z) (bs : list Z) : result buffer :=
  if (0 <=? off) && (off + Z.of_nat (List.length bs) <=? blen b)
  then Ok (buf_set b (Z.to_nat off) bs)
  else Err RangeFault.

(** [ToUint32] of a number that passed the range check. *)
Definition to_uint32 (n : jsnum) : Z :=
  match n with JFin q => Qfloor q mod 2 ^ 32 | _ => 0 end.

(** The range check [value > max || value < min] of Node's [checkInt]
    (NaN passes it). *)
Definition out_of_range (n : jsnum) (max : Z) : bool :=
  match n with
  | JFin q => negb (Qle_bool q (inject_Z max)) || negb (Qle_bool 0 q)
  | JNaN => false
  | _ => true
  end.

Definition writeUInt8 (b : buffer) (v : jsval) (off : Z) : result buffer :=
  let n := to_number v in
  if out_of_range n 255 then Err ValueOutOfRange
  else write_bytes b off (le_bytes 1 (to_uint32 n)).

Definition writeUInt32LE (b : buffer) (v : jsval) (off : Z) : result buffer :=
  let n := to_number v in
  if out_of_range n (2 ^ 32 - 1) then Err ValueOutOfRange
  else write_bytes b off (le_bytes 4 (to_uint32 n)).

Definition writeFloatLE (b : buffer) (v : jsval) (off : Z) : result buffer :=
  write_bytes b off (le_bytes 4 (f32_bits (to_number v))).

(** [buffer.fill(0, off, end)] *)
Definition fill0 (b : buffer) (off en : Z) : result buffer :=
  if (0 <=? off) && (off <=? en) && (en <=? blen b)
  then Ok (buf_set b (Z.to_nat off) (repeat 0 (Z.to_nat (en - off))))
  else Err RangeFault.

(** [Buffer.allocUnsafe(size)]: [size] bytes of unspecified content, taken
    from [garbage] (and zero past its end). *)
Definition allocUnsafe (garbage : list Z) (size : Z) : buffer :=
  firstn (Z.to_nat size) (garbage ++ repeat 0 (Z.to_nat size)).

Example f32_one : f32_bits (JFin 1) = 1065353216. Proof. reflexivity. Qed.
Example f32_tenth : f32_bits (JFin (1 # 10)) = 1036831949. Proof. reflexivity. Qed.
Example f32_neg : f32_bits (JFin (-3 # 4)) = 3208642560. Proof. reflexivity. Qed.
Example fround_tenth : fround (JFin (1 # 10)) = JFin (13421773 # 134217728).
Proof. reflexivity. Qed.
Example fround_one : fround (JFin 1) = JFin 1. Proof. reflexivity. Qed.
Example f32_tiny : f32_bits (JFin (1 # 10 ^ 50)) = 0. Proof. reflexivity. Qed.
Example f32_big : f32_bits (JFin (inject_Z (10 ^ 50))) = 2139095040. Proof. reflexivity. Qed.

(* ------------------------------------------------------------------ *)
(** ** Logger ([setLogger], lines 10-23) *)

(** Own enumerable properties that an object spread copies.  Strings and
    arrays only contribute index-named keys, which are not represented
    (they never name [log] or [error]). *)
Definition own_props (v : jsval) : list (string * jsval) :=
  match v with JObj ps => ps | _ => [] end.

(** Assignment of one property during a spread: an existing key keeps its
    position and takes the new value, a new key is appended. *)
Fixpoint obj_set (ps : list (string * jsval)) (k : string) (v : jsval)
  : list (string * jsval) :=
  match ps with
  | [] => [(k, v)]
  | (k', v') :: ps' =>
      if String.eqb k k' then (k', v) :: ps' else (k', v') :: obj_set ps' k v
  end.

(** [{ ...a, ...b }] *)
Definition obj_spread (a b : list (string * jsval)) : list (string * jsval) :=
  fold_left (fun acc kv => obj_set acc (fst kv) (snd kv)) b a.

Definition defaultLogger : jsval :=
  JObj [("log", JFun "() => {}"); ("error", JFun "console.error")].

(** [setLogger(customLogger)]: the module-level [logger] slot before the
    call is [_logger]; the new slot value is returned. *)
Definition setLogger (_logger : jsval) (customLogger : jsval) : jsval :=
  JObj (obj_spread (own_props defaultLogger) (own_props customLogger)).

(* ------------------------------------------------------------------ *)
(** ** [validateIndex] (lines 99-109) *)

Definition validateIndex (index : jsval) : result unit :=
  if negb (truthy index) then Err IndexRequired
  else if negb (is_function (getd index "getNumDimensions"))
          || negb (is_function (getd index "getCurrentCount"))
          || negb (is_function (getd index "getUsedLabels"))
          || negb (is_function (getd index "getPoint"))
  then Err MissingRequiredMethods
  else Ok tt.

(* ------------------------------------------------------------------ *)
(** ** Saving ([saveIndexJSON], lines 171-190; [saveIndexBinary], lines 201-248)

    The index's [getMaxElements()] is passed as the result the call would
    give ([index.getMaxElements] may be missing: [Err TypeError]); it is only
    used when the code evaluates it.  [numDimensions] is the non-negative
    integer the index reports; [vectors] are the [{label, point}] records of
    [extractVectorsFromIndex], whose points are arrays. *)

Definition record := (jsval * list jsval)%type.

(** [a || b()] where evaluating [b] may throw *)
Definition js_or_call (a : jsval) (b : result jsval) : result jsval :=
  if truthy a then Ok a else b.

(** The [vectors] array as the JSON document holds it. *)
Definition record_obj (r : record) : jsval :=
  JObj [("label", fst r); ("point", JArr (snd r))].

(** The object [data] that [saveIndexJSON] stringifies and writes. *)
Definition saveIndexJSON (getMaxElements : result jsval) (metadata : jsval)
  (numDimensions : Z) (vectors : list record) : result jsval :=
  let! sp := get metadata "spaceName" in
  let! me := get metadata "maxElements" in
  let! maxElements := js_or_call me getMaxElements in
  let! m := get metadata "m" in
  let! ef := get metadata "efConstruction" in
  let! seed := get metadata "randomSeed" in
  Ok (JObj [("version", num_Z 1);
            ("spaceName", js_or sp (JStr "l2"));
            ("numDimensions", num_Z numDimensions);
            ("maxElements", maxElements);
            ("m", js_or m (num_Z 16));
            ("efConstruction", js_or ef (num_Z 200));
            ("randomSeed", js_or seed (num_Z 100));
            ("numVectors", num_Z (Z.of_nat (length vectors)));
            ("vectors", JArr (map record_obj vectors))]).

(** [JSON.parse(JSON.stringify(v))] on the values this code writes:
    non-finite numbers become [null], [undefined] and function members are
    dropped from objects and become [null] in arrays.  (Objects have
    distinct keys.) *)
Fixpoint json_rt (v : jsval) : jsval :=
  match v with
  | JNum n => if num_finite n then JNum n else JNull
  | JArr xs =>
      JArr ((fix go (xs : list jsval) : list jsval :=
               match xs with
               | [] => []
               | x :: xs' =>
                   (match x with JUndef | JFun _ => JNull | _ => json_rt x end)
                     :: go xs'
               end) xs)
  | JObj ps =>
      JObj ((fix go (ps : list (string * jsval)) : list (string * jsval) :=
               match ps with
               | [] => []
               | (k, x) :: ps' =>
                   match x with
                   | JUndef | JFun _ => go ps'
                   | _ => (k, json_rt x) :: go ps'
                   end
               end) ps)
  | JFun _ => JUndef
  | _ => v
  end.

(** [spaceNameMap[key] || 0] with [spaceNameMap = { l2: 0, ip: 1, cosine: 2 }].
    Every other key gives [undefined] or an inherited [Object.prototype]
    member, and both make [writeUInt8] store 0. *)
Definition space_code (key : jsval) : Z :=
  match key with
  | JStr s =>
      if String.eqb s "ip" then 1 else if String.eqb s "cosine" then 2 else 0
  | _ => 0
  end.

(** The inner loop [for (const value of point)]. *)
Fixpoint write_point (buf : buffer) (offset : Z) (point : list jsval)
  : result (buffer * Z) :=
  match point with
  | [] => Ok (buf, offset)
  | value :: rest =>
      if negb (is_number value) || negb (num_finite (to_number value))
      then Err (InvalidVectorValue value)
      else
        let! buf := writeFloatLE buf value offset in
        write_point buf (offset + 4) rest
  end.

(** The outer loop [for (const { label, point } of vectors)]. *)
Fixpoint write_vectors (numDimensions : Z) (buf : buffer) (offset : Z)
  (vectors : list record) : result (buffer * Z) :=
  match vectors with
  | [] => Ok (buf, offset)
  | (label, point) :: rest =>
      if negb (Z.of_nat (length point) =? numDimensions)
      then Err (DimensionMismatch numDimensions (Z.of_nat (length point)))
      else
        let! buf := writeUInt32LE buf label offset in
        let! bo := write_point buf (offset + 4) point in
        write_vectors numDimensions (fst bo) (snd bo) rest
  end.

(** The [try] block of [saveIndexBinary]: the buffer is built, then
    written out whole; the buffer written is the result.  [garbage] is the
    unspecified initial content of [Buffer.allocUnsafe]. *)
Definition saveIndexBinary_body (garbage : list Z) (getMaxElements : result jsval)
  (metadata : jsval) (spaceNameCode numDimensions bufferSize : Z)
  (vectors : list record) : result buffer :=
  let reservedSize := 14 in
  let buf := allocUnsafe garbage bufferSize in
  let offset := 0 in
  let! buf := writeUInt8 buf (num_Z 1) offset in
  let offset := offset + 1 in
  let! buf := writeUInt8 buf (num_Z spaceNameCode) offset in
  let offset := offset + 1 in
  let! buf := writeUInt32LE buf (num_Z numDimensions) offset in
  let offset := offset + 4 in
  let! maxElements := js_or_call (getd metadata "maxElements") getMaxElements in
  let! buf := writeUInt32LE buf maxElements offset in
  let offset := offset + 4 in
  let! buf := writeUInt32LE buf (js_or (getd metadata "m") (num_Z 16)) offset in
  let offset := offset + 4 in
  let! buf := writeUInt32LE buf (js_or (getd metadata "efConstruction") (num_Z 200)) offset in
  let offset := offset + 4 in
  let! buf := writeUInt32LE buf (js_or (getd metadata "randomSeed") (num_Z 100)) offset in
  let offset := offset + 4 in
  let! buf := writeUInt32LE buf (num_Z (Z.of_nat (length vectors))) offset in
  let offset := offset + 4 in
  let! buf := fill0 buf offset (offset + reservedSize) in
  let offset := offset + reservedSize in
  let! bo := write_vectors numDimensions buf offset vectors in
  Ok (fst bo).

Definition saveIndexBinary (garbage : list Z) (getMaxElements : result jsval)
  (metadata : jsval) (numDimensions : Z) (vectors : list record) : result buffer :=
  let! sp := get metadata "spaceName" in
  let spaceNameCode := space_code (js_or sp (JStr "l2")) in
  let headerSize := 40 in
  let vectorSize := 4 + numDimensions * 4 in
  let bufferSize := headerSize + Z.of_nat (length vectors) * vectorSize in
  match saveIndexBinary_body garbage getMaxElements metadata spaceNameCode
          numDimensions bufferSize vectors with
  | Ok buf => Ok buf
  | Err e => Err (WriteBinaryFailed e)
  end.

(* ------------------------------------------------------------------ *)
(** ** The hnswlib engine and the load monad *)

(** The calls the loaders make on hnswlib. *)
Inductive call : Type :=
| CNew (spaceName numDimensions : jsval)          (* new HierarchicalNSW(s, d, '') *)
| CInit (maxElements m efConstruction randomSeed : jsval)   (* index.initIndex *)
| CAdd (point label : jsval) (replaceDeleted : bool).       (* index.addPoint *)

(** The engine, an external collaborator: given the calls made so far and
    the next call, [Some msg] when that call throws [msg]. *)
Definition engine := list call -> call -> option string.

(** The engine accepts every call. *)
Definition engine_total (eng : engine) : Prop := forall h c, eng h c = None.

(** Computations of the loaders: the log of successful engine calls is
    threaded through, and is kept when an exception is thrown. *)
Definition M (A : Type) : Type := list call -> result A * list call.

Definition ret {A} (a : A) : M A := fun h => (Ok a, h).

Definition mbind {A B} (m : M A) (k : A -> M B) : M B :=
  fun h => match m h with
           | (Ok a, h') => k a h'
           | (Err e, h') => (Err e, h')
           end.

Notation "'let*' x := m 'in' k" := (mbind m (fun x => k))
  (at level 200, x name, m at level 100, k at level 200).

Definition lift {A} (r : result A) : M A := fun h => (r, h).

Definition throw {A} (e : exn) : M A := lift (Err e).

Section Engine.
Variable eng : engine.

(** One call on the engine. *)
Definition hnsw (c : call) : M unit :=
  fun h => match eng h c with
           | None => (Ok tt, h ++ [c])
           | Some msg => (Err (EngineError msg), h)
           end.

(** [try { ... } catch (error) { throw new Error(`Failed to recreate index: ...`) }] *)
Definition try_recreate {A} (m : M A) : M A :=
  fun h => match m h with
           | (Ok a, h') => (Ok a, h')
           | (Err e, h') => (Err (RecreateFailed e), h')
           end.

(** The metadata object the loaders return. *)
Record meta : Type := {
  meta_spaceName : jsval;
  meta_numDimensions : jsval;
  meta_maxElements : jsval;
  meta_m : jsval;
  meta_efConstruction : jsval;
  meta_randomSeed : jsval }.

(* ---------------- loadIndexJSON (lines 292-354) ---------------- *)

(** [n <= 0] on a number *)
Definition num_le0 (v : jsval) : bool :=
  match v with
  | JNum (JFin q) => Qle_bool q 0
  | JNum JNegInf => true
  | _ => false
  end.

(** [['l2', 'ip', 'cosine'].includes(v)] *)
Definition valid_space (v : jsval) : bool :=
  match v with
  | JStr s => String.eqb s "l2" || String.eqb s "ip" || String.eqb s "cosine"
  | _ => false
  end.

(** [point.length !== n] is false, for an array [point] *)
Definition length_is (xs : list jsval) (n : jsval) : bool :=
  match n with
  | JNum (JFin q) => Qeq_bool (inject_Z (Z.of_nat (length xs))) q
  | _ => false
  end.

(** [for (const { label, point } of data.vectors) { ... index.addPoint(...) }] *)
Fixpoint add_json_vectors (numDimensions : jsval) (vs : list jsval) : M unit :=
  match vs with
  | [] => ret tt
  | v :: vs' =>
      let* label := lift (get v "label") in
      let* point := lift (get v "point") in
      if negb (is_number label) then throw (InvalidLabel label)
      else match point with
           | JArr xs =>
               if negb (length_is xs numDimensions) then throw InvalidVector
               else
                 let* _ := hnsw (CAdd point label false) in
                 add_json_vectors numDimensions vs'
           | _ => throw InvalidVector
           end
  end.

(** [loadIndexJSON] after [JSON.parse]: [data] is the parsed document. *)
Definition loadIndexJSON (data : jsval) : M meta :=
  let* vectors := lift (get data "vectors") in
  match vectors with
  | JArr vs =>
      let* nd := lift (get data "numDimensions") in
      if negb (is_number nd) || num_le0 nd then throw InvalidNumDimensionsField
      else
        let* sp := lift (get data "spaceName") in
        if negb (truthy sp) || negb (valid_space sp) then throw (InvalidSpaceName sp)
        else
          try_recreate (
            let* _ := hnsw (CNew sp nd) in
            let* _ := hnsw (CInit (js_or (getd data "maxElements") (num_Z 100))
                                  (js_or (getd data "m") (num_Z 16))
                                  (js_or (getd data "efConstruction") (num_Z 200))
                                  (js_or (getd data "randomSeed") (num_Z 100))) in
            let* _ := add_json_vectors nd vs in
            ret {| meta_spaceName := sp;
                   meta_numDimensions := nd;
                   meta_maxElements := js_or (getd data "maxElements") (num_Z 100);
                   meta_m := js_or (getd data "m") (num_Z 16);
                   meta_efConstruction := js_or (getd data "efConstruction") (num_Z 200);
                   meta_randomSeed := js_or (getd data "randomSeed") (num_Z 100) |})
  | _ => throw MissingVectorsArray
  end.

(* ---------------- loadIndexBinary (lines 363-453) ---------------- *)

(** [spaceNameMap[code] || 'l2'] with [spaceNameMap = ['l2', 'ip', 'cosine']] *)
Definition space_name (code : Z) : string :=
  if code =? 1 then "ip" else if code =? 2 then "cosine" else "l2".

(** [for (let j = 0; j < numDimensions; j++) { ... point.push(readFloatLE) }] *)
Fixpoint read_point (buffer : buffer) (i j : Z) (k : nat) (offset : Z)
  : result (list jsnum * Z) :=
  match k with
  | O => Ok ([], offset)
  | S k' =>
      if offset + 4 >? blen buffer then Err (DimensionEOF i j)
      else
        let! x := readFloatLE buffer offset in
        let! r := read_point buffer i (j + 1) k' (offset + 4) in
        Ok (x :: fst r, snd r)
  end.

(** [for (let i = 0; i < numVectors; i++) { ... index.addPoint(point, label, false) }] *)
Fixpoint read_vectors (buffer : buffer) (numDimensions i : Z) (k : nat) (offset : Z)
  : M unit :=
  match k with
  | O => ret tt
  | S k' =>
      if offset + 4 >? blen buffer then throw (VectorEOF i)
      else
        let* label := lift (readUInt32LE buffer offset) in
        let* pr := lift (read_point buffer i 0 (Z.to_nat numDimensions) (offset + 4)) in
        let* _ := hnsw (CAdd (JArr (map JNum (fst pr))) (num_Z label) false) in
        read_vectors buffer numDimensions (i + 1) k' (snd pr)
  end.

(** [loadIndexBinary] after [fs.readFile]: [buffer] is the file content. *)
Definition loadIndexBinary (buffer : buffer) : M meta :=
  let minSize := 40 in
  if blen buffer <? minSize then throw (FileTooSmall (blen buffer))
  else
    let offset := 0 in
    let* version := lift (readUInt8 buffer offset) in
    let offset := offset + 1 in
    if negb (version =? 1) then throw (UnsupportedVersion version)
    else if offset >=? blen buffer then throw HeaderEOF
    else
      let* spaceNameCode := lift (readUInt8 buffer offset) in
      let offset := offset + 1 in
      let spaceName := space_name spaceNameCode in
      if offset + 24 >? blen buffer then throw HeaderEOF
      else
        let* numDimensions := lift (readUInt32LE buffer offset) in
        let offset := offset + 4 in
        let* maxElements := lift (readUInt32LE buffer offset) in
        let offset := offset + 4 in
        let* m := lift (readUInt32LE buffer offset) in
        let offset := offset + 4 in
        let* efConstruction := lift (readUInt32LE buffer offset) in
        let offset := offset + 4 in
        let* randomSeed := lift (readUInt32LE buffer offset) in
        let offset := offset + 4 in
        let* numVectors := lift (readUInt32LE buffer offset) in
        let offset := offset + 4 in
        let offset := offset + 14 in
        if (numDimensions <=? 0) || (100000 <? numDimensions)
        then throw (InvalidNumDimensions numDimensions)
        else if (numVectors <? 0) || (100000000 <? numVectors)
        then throw (InvalidNumVectors numVectors)
        else
          let vectorSize := 4 + numDimensions * 4 in
          let expectedSize := 40 + numVectors * vectorSize in
          if blen buffer <? expectedSize
          then throw (SizeMismatch expectedSize (blen buffer))
          else
            try_recreate (
              let* _ := hnsw (CNew (JStr spaceName) (num_Z numDimensions)) in
              let* _ := hnsw (CInit (num_Z maxElements) (num_Z m)
                                    (num_Z efConstruction) (num_Z randomSeed)) in
              let* _ := read_vectors buffer numDimensions 0 (Z.to_nat numVectors) offset in
              ret {| meta_spaceName := JStr spaceName;
                     meta_numDimensions := num_Z numDimensions;
                     meta_maxElements := num_Z maxElements;
                     meta_m := num_Z m;
                     meta_efConstruction := num_Z efConstruction;
                     meta_randomSeed := num_Z randomSeed |}).

End Engine.

(** An engine that accepts every call. *)
Definition accept_all : engine := fun _ _ => None.

(** The concrete scenario of the spec: three unit vectors in dimension 3. *)
Definition ex_records : list record :=
  [(num_Z 0, [num_Z 1; num_Z 0; num_Z 0]);
   (num_Z 1, [num_Z 0; num_Z 1; num_Z 0]);
   (num_Z 2, [num_Z 0; num_Z 0; num_Z 1])].

Definition ex_metadata : jsval :=
  JObj [("spaceName", JStr "l2"); ("maxElements", num_Z 10); ("m", num_Z 16);
        ("efConstruction", num_Z 200); ("randomSeed", num_Z 100)].

Example ex_bin_length :
  option_map (@length Z)
    (match saveIndexBinary [] (Err TypeError) ex_metadata 3 ex_records with
     | Ok b => Some b | Err _ => None end) = Some 88%nat.
Proof. vm_compute. reflexivity. Qed.

Example ex_bin_roundtrip :
  fst (match saveIndexBinary [] (Err TypeError) ex_metadata 3 ex_records with
       | Ok b => loadIndexBinary accept_all b []
       | Err e => (Err e, []) end)
  = Ok {| meta_spaceName := JStr "l2"; meta_numDimensions := num_Z 3;
          meta_maxElements := num_Z 10; meta_m := num_Z 16;
          meta_efConstruction := num_Z 200; meta_randomSeed := num_Z 100 |}.
Proof. vm_compute. reflexivity. Qed.

(* ------------------------------------------------------------------ *)
(** ** Auxiliary definitions for the statements *)

(** Number of [addPoint] calls in a log. *)
Definition is_add (c : call) : bool :=
  match c with CAdd _ _ _ => true | _ => false end.

Definition inserted (h : list call) : nat := length (filter is_add h).

(** Header fields as the binary loader reads them. *)
Definition hdr_u8 (b : buffer) (off : Z) : Z :=
  le_value (firstn 1 (skipn (Z.to_nat off) b)).

Definition hdr_u32 (b : buffer) (off : Z) : Z :=
  le_value (firstn 4 (skipn (Z.to_nat off) b)).

(** The size the binary loader expects from the header of [b]. *)
Definition expected_size (b : buffer) : Z :=
  40 + hdr_u32 b 22 * (4 + hdr_u32 b 2 * 4).

(** The methods [validateIndex] checks, and the capabilities the spec's
    adapter interface lists. *)
Definition checked_methods : list string :=
  ["getNumDimensions"; "getCurrentCount"; "getUsedLabels"; "getPoint"].

Definition adapter_methods : list string :=
  checked_methods ++ ["addPoint"; "initIndex"; "getMaxElements"].

(** An index object with exactly the given methods. *)
Definition index_with (ms : list string) : jsval :=
  JObj (map (fun k => (k, JFun k)) ms).

(** A text document as [saveIndexJSON] lays it out. *)
Definition json_doc (spaceName numDimensions maxElements m efConstruction randomSeed
  numVectors : jsval) (vectors : list jsval) : jsval :=
  JObj [("version", num_Z 1); ("spaceName", spaceName);
        ("numDimensions", numDimensions); ("maxElements", maxElements);
        ("m", m); ("efConstruction", efConstruction); ("randomSeed", randomSeed);
        ("numVectors", numVectors); ("vectors", JArr vectors)].

Definition vec_obj (label : jsval) (point : list jsval) : jsval :=
  JObj [("label", label); ("point", JArr point)].

(** A record of a text document that the loader's per-record checks accept. *)
Definition json_record_ok (numDimensions v : jsval) : bool :=
  match get v "label", get v "point" with
  | Ok l, Ok (JArr xs) => is_number l && length_is xs numDimensions
  | _, _ => false
  end.

(** The insertion the text loader makes for an accepted record. *)
Definition json_record_call (v : jsval) : call :=
  CAdd (getd v "point") (getd v "label") false.

(** The checks of the text loader before its [try] block. *)
Definition json_toplevel_ok (data : jsval) : bool :=
  match get data "vectors", get data "numDimensions", get data "spaceName" with
  | Ok (JArr _), Ok nd, Ok sp =>
      is_number nd && negb (num_le0 nd) && truthy sp && valid_space sp
  | _, _, _ => false
  end.

(** The calls the text loader makes before the records. *)
Definition json_setup_calls (data : jsval) : list call :=
  [CNew (getd data "spaceName") (getd data "numDimensions");
   CInit (js_or (getd data "maxElements") (num_Z 100))
         (js_or (getd data "m") (num_Z 16))
         (js_or (getd data "efConstruction") (num_Z 200))
         (js_or (getd data "randomSeed") (num_Z 100))].

(** A 40-byte binary header with the given fields (reserved bytes zero). *)
Definition header_bytes (version code numDimensions maxElements m efConstruction
  randomSeed numVectors : Z) : list Z :=
  le_bytes 1 version ++ le_bytes 1 code ++ le_bytes 4 numDimensions ++
  le_bytes 4 maxElements ++ le_bytes 4 m ++ le_bytes 4 efConstruction ++
  le_bytes 4 randomSeed ++ le_bytes 4 numVectors ++ repeat 0 14.

(** The binary file of the spec's scenario (three unit vectors). *)
Definition ex_bin : buffer :=
  match saveIndexBinary [] (Err TypeError) ex_metadata 3 ex_records with
  | Ok b => b
  | Err _ => []
  end.

(** A text document declaring five vectors and holding one. *)
Definition ex_doc_count : jsval :=
  json_doc (JStr "l2") (num_Z 3) (num_Z 10) (num_Z 16) (num_Z 200) (num_Z 100)
    (num_Z 5) [vec_obj (num_Z 7) [num_Z 1; num_Z 2; num_Z 3]].

(** A text document whose second record has a string label. *)
Definition ex_doc_badlabel : jsval :=
  json_doc (JStr "l2") (num_Z 3) (num_Z 10) (num_Z 16) (num_Z 200) (num_Z 100)
    (num_Z 2) [vec_obj (num_Z 7) [num_Z 1; num_Z 2; num_Z 3];
               vec_obj (JStr "a") [num_Z 4; num_Z 5; num_Z 6]].

(** A binary file with space code 7, dimension 2 and one vector. *)
Definition ex_bin_code7 : buffer :=
  header_bytes 1 7 2 10 16 200 100 1 ++ le_bytes 4 5 ++ le_bytes 4 0 ++ le_bytes 4 0.

(** A bare 40-byte header announcing two vectors of dimension 3. *)
Definition ex_bin_truncated : buffer := header_bytes 1 0 3 10 16 200 100 2.

(** The bytes [saveIndexBinary] writes for a point and for a record. *)
Definition point_bytes (point : list jsval) : list Z :=
  concat (map (fun v => le_bytes 4 (f32_bits (to_number v))) point).

Definition record_bytes (r : record) : list Z :=
  le_bytes 4 (to_uint32 (to_number (fst r))) ++ point_bytes (snd r).

(** A finite number. *)
Definition finite_num (v : jsval) : bool :=
  match v with JNum (JFin _) => true | _ => false end.

(** The records the round trip is stated for: an unsigned 32-bit integer
    label and a point of [d] finite numbers. *)
Definition valid_record (d : Z) (r : record) : Prop :=
  (exists z, fst r = num_Z z /\ 0 <= z <= 2 ^ 32 - 1) /\
  length (snd r) = Z.to_nat d /\ forallb finite_num (snd r) = true.

(** The metadata and the engine calls a round trip is expected to give. *)
Definition rt_meta (sp : string) (d me m ef seed : Z) : meta :=
  {| meta_spaceName := JStr sp; meta_numDimensions := num_Z d;
     meta_maxElements := num_Z me; meta_m := num_Z m;
     meta_efConstruction := num_Z ef; meta_randomSeed := num_Z seed |}.

Definition rt_setup (sp : string) (d me m ef seed : Z) : list call :=
  [CNew (JStr sp) (num_Z d); CInit (num_Z me) (num_Z m) (num_Z ef) (num_Z seed)].

(** The insertions of the text loader, and of the binary loader (whose
    points come back at binary32 precision). *)
Definition json_adds (vectors : list record) : list call :=
  map (fun r => CAdd (JArr (snd r)) (fst r) false) vectors.

Definition bin_adds (vectors : list record) : list call :=
  map (fun r => CAdd (JArr (map (fun v => JNum (fround (to_number v))) (snd r)))
                     (fst r) false) vectors.

(** The spec's metadata with a random seed of 0. *)
Definition ex_metadata_seed0 : jsval :=
  JObj [("spaceName", JStr "l2"); ("maxElements", num_Z 10); ("m", num_Z 16);
        ("efConstruction", num_Z 200); ("randomSeed", num_Z 0)].

(* ------------------------------------------------------------------ *)
(** ** Entry points ([validateFilename], lines 117-126;
    [extractVectorsFromIndex], lines 75-91; [saveIndexToFile], lines 134-161;
    [loadIndexFromFile], lines 257-283)

    Strings hold UTF-16 code units in [0, 256).  The logger calls of these
    functions ([logger.log], [logger.error]) are taken to return normally
    and are not represented. *)

(** [typeof v === 'string'] *)
Definition is_string (v : jsval) : bool :=
  match v with JStr _ => true | _ => false end.

(** The code units [String.prototype.trim] removes, among 0-255: TAB, LF,
    VT, FF, CR, SPACE and NO-BREAK SPACE. *)
Definition js_ws (c : ascii) : bool :=
  let n := nat_of_ascii c in
  ((9 <=? n)%nat && (n <=? 13)%nat) || (n =? 32)%nat || (n =? 160)%nat.

Fixpoint trim_start (s : string) : string :=
  match s with
  | EmptyString => EmptyString
  | String c s' => if js_ws c then trim_start s' else s
  end.

Fixpoint trim_end (s : string) : string :=
  match s with
  | EmptyString => EmptyString
  | String c s' =>
      let r := trim_end s' in
      if js_ws c && String.eqb r EmptyString then EmptyString else String c r
  end.

(** [s.trim()] *)
Definition trim (s : string) : string := trim_end (trim_start s).

Definition validateFilename (filename : jsval) : result unit :=
  if negb (truthy filename) || negb (is_string filename) then Err FilenameNotString
  else match filename with
       | JStr s => if (String.length (trim s) =? 0)%nat then Err FilenameEmpty else Ok tt
       | _ => Ok tt
       end.

(** [s.endsWith(suffix)] *)
Definition ends_with (s suffix : string) : bool :=
  (String.length suffix <=? String.length s)%nat &&
  String.eqb (substring (String.length s - String.length suffix) (String.length suffix) s)
             suffix.

(** [filename.endsWith('.bin') || filename.endsWith('.dat')] *)
Definition is_binary (filename : string) : bool :=
  ends_with filename ".bin" || ends_with filename ".dat".

(** The filename once [validateFilename] has accepted it (a string). *)
Definition filename_str (filename : jsval) : string :=
  match filename with JStr s => s | _ => EmptyString end.

(** The index object given to [saveIndexToFile]: the object itself (its
    own properties, which [validateIndex] inspects) and what each of the
    methods the code calls returns or throws.  [getNumDimensions] returns
    hnswlib's dimension, a non-negative integer. *)
Record index_obj : Type := {
  ix_val : jsval;
  ix_getNumDimensions : result N;
  ix_getCurrentCount : result jsval;
  ix_getUsedLabels : result jsval;
  ix_getPoint : jsval -> result jsval;
  ix_getMaxElements : result jsval }.

(** [index.k(...)], whose result is [r] when [index.k] is a function. *)
Definition call_method {A} (ix : index_obj) (k : string) (r : result A) : result A :=
  if is_function (getd (ix_val ix) k) then r else Err TypeError.

(** The one-character strings of a string. *)
Definition str_chars (s : string) : list jsval :=
  map (fun c => JStr (String c EmptyString)) (list_ascii_of_string s).

(** The values [for (const x of v)] iterates over: the elements of an
    array, the characters of a string; the other values of the model are
    not iterable. *)
Definition iterate (v : jsval) : result (list jsval) :=
  match v with
  | JArr xs => Ok xs
  | JStr s => Ok (str_chars s)
  | _ => Err TypeError
  end.

(** Decimal digits of a natural number (the property key of an index). *)
Fixpoint nat_digits (fuel n : nat) (acc : string) : string :=
  match fuel with
  | O => acc
  | S f =>
      let acc' := String (ascii_of_nat (48 + n mod 10)) acc in
      if (n <? 10)%nat then acc' else nat_digits f (n / 10) acc'
  end.

Definition nat_to_string (n : nat) : string := nat_digits (S n) n EmptyString.

(** ToLength *)
Definition to_length (n : jsnum) : nat :=
  match n with
  | JFin q => if Qle_bool q 0 then O else Z.to_nat (Z.min (Qfloor q) (2 ^ 53 - 1))
  | JPosInf => Z.to_nat (2 ^ 53 - 1)
  | _ => O
  end.

(** [Array.from(v)] for a value [v] that is not an array: a string gives
    its characters, an object is read as an array-like ([length] and the
    index-named properties), numbers and booleans give [] (no [length]),
    a function gives [] (its [length] is its arity; the functions of this
    model declare no parameter), null and undefined throw. *)
Definition array_from (v : jsval) : result (list jsval) :=
  match v with
  | JUndef | JNull => Err TypeError
  | JStr s => Ok (str_chars s)
  | JObj ps =>
      Ok (map (fun i => getd v (nat_to_string i))
              (seq 0 (to_length (to_number (getd v "length")))))
  | JArr xs => Ok xs
  | _ => Ok []
  end.

(** The loop of [extractVectorsFromIndex]. *)
Fixpoint extract_points (ix : index_obj) (labels : list jsval) : result (list record) :=
  match labels with
  | [] => Ok []
  | label :: rest =>
      let! point := call_method ix "getPoint" (ix_getPoint ix label) in
      let! vector := match point with JArr xs => Ok xs | _ => array_from point end in
      let! vectors := extract_points ix rest in
      Ok ((label, vector) :: vectors)
  end.

Definition extractVectorsFromIndex (ix : index_obj) : result (list record) :=
  match (let! usedLabels := call_method ix "getUsedLabels" (ix_getUsedLabels ix) in
         let! labels := iterate usedLabels in
         extract_points ix labels) with
  | Ok vectors => Ok vectors
  | Err e => Err (ExtractFailed e)
  end.

(** What [saveIndexToFile] hands to [fs.writeFile]: the object [data] that
    [JSON.stringify(data, null, 2)] serialises, or the buffer. *)
Inductive written : Type :=
| WText (data : jsval)
| WBytes (b : buffer).

(** [metadata = {}]: the default applies when the argument is undefined. *)
Definition default_param (v d : jsval) : jsval :=
  match v with JUndef => d | _ => v end.

(** [v === 0] *)
Definition is_zero (v : jsval) : bool :=
  match v with JNum (JFin q) => Qeq_bool q 0 | _ => false end.

(** [saveIndexToFile(index, filename, metadata)]: [fs_write w] is [Some msg]
    when [fs.writeFile] rejects with [msg].  The result is what was written.
    Errors of the [try] block are logged and rethrown unchanged. *)
Definition saveIndexToFile (garbage : list Z) (fs_write : written -> option string)
  (ix : index_obj) (filename metadata : jsval) : result written :=
  let metadata := default_param metadata (JObj []) in
  let! _ := validateIndex (ix_val ix) in
  let! _ := validateFilename filename in
  let! numDimensions := call_method ix "getNumDimensions" (ix_getNumDimensions ix) in
  let! numVectors := call_method ix "getCurrentCount" (ix_getCurrentCount ix) in
  if is_zero numVectors then Err EmptyIndex
  else
    let! vectors := extractVectorsFromIndex ix in
    let getMaxElements := call_method ix "getMaxElements" (ix_getMaxElements ix) in
    if is_binary (filename_str filename) then
      let! buf := saveIndexBinary garbage getMaxElements metadata
                    (Z.of_N numDimensions) vectors in
      match fs_write (WBytes buf) with
      | None => Ok (WBytes buf)
      | Some msg => Err (WriteBinaryFailed (FsError msg))
      end
    else
      let! data := saveIndexJSON getMaxElements metadata (Z.of_N numDimensions) vectors in
      match fs_write (WText data) with
      | None => Ok (WText data)
      | Some msg => Err (WriteJSONFailed (FsError msg))
      end.

(** The file system as the loaders see it: whether [fs.access] succeeds on
    a name, and what [fs.readFile] gives (the bytes, or the error). *)
Record fsys : Type := {
  fs_access : string -> bool;
  fs_read : string -> result buffer }.

Section Files.
Variable eng : engine.
(** [JSON.parse] of the UTF-8 text of some bytes ([None]: a SyntaxError). *)
Variable json_parse : buffer -> option jsval.
Variable fs : fsys.

(** [loadIndexJSON(hnswlib, filename)] with its file read. *)
Definition loadIndexJSON_file (filename : string) : M meta :=
  match fs_read fs filename with
  | Err e => throw (ReadFailed e)
  | Ok content =>
      match json_parse content with
      | None => throw InvalidJSONFile
      | Some data => loadIndexJSON eng data
      end
  end.

(** [loadIndexBinary(hnswlib, filename)] with its file read. *)
Definition loadIndexBinary_file (filename : string) : M meta :=
  match fs_read fs filename with
  | Err e => throw (ReadFailed e)
  | Ok buffer => loadIndexBinary eng buffer
  end.

(** [loadIndexFromFile(hnswlib, filename)]: [hnswlib] is the module object,
    whose [HierarchicalNSW] behaves as [eng].  Errors of the last [try] are
    logged and rethrown unchanged. *)
Definition loadIndexFromFile (hnswlib filename : jsval) : M meta :=
  let* _ := lift (validateFilename filename) in
  if negb (truthy hnswlib) || negb (is_function (getd hnswlib "HierarchicalNSW"))
  then throw InvalidHnswlibModule
  else
    let name := filename_str filename in
    if negb (fs_access fs name) then throw (FileNotFound name)
    else if is_binary name then loadIndexBinary_file name
    else loadIndexJSON_file name.

End Files.

(** An index object with the four checked methods, count 3, labels 0, 1, 2
    and the points of [ex_records]. *)
Definition ex_index : index_obj :=
  {| ix_val := index_with checked_methods;
     ix_getNumDimensions := Ok 3%N;
     ix_getCurrentCount := Ok (num_Z 3);
     ix_getUsedLabels := Ok (JArr (map fst ex_records));
     ix_getPoint := fun l =>
       Ok (JArr (nth (Z.to_nat (to_uint32 (to_number l))) (map snd ex_records) []));
     ix_getMaxElements := Err TypeError |}.

(** An hnswlib module object. *)
Definition ex_hnswlib : jsval := JObj [("HierarchicalNSW", JFun "HierarchicalNSW")].

(** The text file [saveIndexToFile] writes for [ex_index], and a
    [JSON.parse] that reads any content as it. *)
Definition ex_json_saved : jsval :=
  match saveIndexJSON (Err TypeError) ex_metadata 3 ex_records with
  | Ok d => d
  | Err _ => JUndef
  end.

Definition ex_parse (content : buffer) : option jsval := Some (json_rt ex_json_saved).

(** A computation of the loaders that only appends to the log of engine
    calls. *)
Definition appends_only {A} (m : M A) : Prop :=
  forall h r h', m h = (r, h') -> exists ext, h' = h ++ ext.

(** Two buffers of the same length holding the same first [k] bytes. *)
Definition agree (k : nat) (b1 b2 : buffer) : Prop :=
  length b1 = length b2 /\ firstn k b1 = firstn k b2.

(** Two results: the same error, or values related by [R]. *)
Definition res_agree {A} (R : A -> A -> Prop) (r1 r2 : result A) : Prop :=
  match r1, r2 with
  | Ok a1, Ok a2 => R a1 a2
  | Err e1, Err e2 => e1 = e2
  | _, _ => False
  end.

(* ------------------------------------------------------------------ *)
(** ** Generic lemmas *)

Ltac zbool :=
  repeat first
    [ rewrite Z.gtb_ltb in *
    | rewrite Z.geb_leb in *
    | match goal with
      | |- context [?a <? ?b] =>
          first [ rewrite (proj2 (Z.ltb_lt a b)) by lia
                | rewrite (proj2 (Z.ltb_ge a b)) by lia ]
      | |- context [?a <=? ?b] =>
          first [ rewrite (proj2 (Z.leb_le a b)) by lia
                | rewrite (proj2 (Z.leb_gt a b)) by lia ]
      | |- context [?a =? ?b] =>
          first [ rewrite (proj2 (Z.eqb_eq a b)) by lia
                | rewrite (proj2 (Z.eqb_neq a b)) by lia ]
      end ].

Lemma assoc_obj_set : forall ps k k' v,
  assoc k (obj_set ps k' v) = if String.eqb k k' then Some v else assoc k ps.
Proof.
  induction ps as [|[k'' v''] ps IH]; intros k k' v; simpl.
  - destruct (String.eqb k k'); reflexivity.
  - destruct (String.eqb_spec k' k'') as [<-|Hne]; simpl.
    + destruct (String.eqb k k'); reflexivity.
    + rewrite IH. destruct (String.eqb_spec k k'') as [->|]; [|reflexivity].
      destruct (String.eqb_spec k'' k') as [->|]; [congruence|reflexivity].
Qed.

Lemma assoc_obj_spread : forall b a k,
  NoDup (map fst b) ->
  assoc k (obj_spread a b) =
  match assoc k b with Some v => Some v | None => assoc k a end.
Proof.
  induction b as [|[k' v] b IH]; intros a k Hnd; simpl; [reflexivity|].
  inversion Hnd as [|? ? Hnin Hnd']; subst.
  unfold obj_spread in *. simpl. rewrite IH by assumption.
  rewrite assoc_obj_set.
  destruct (String.eqb_spec k k') as [->|Hne].
  - assert (assoc k' b = None) as ->.
    { clear -Hnin. induction b as [|[k'' v''] b IH']; simpl in *; [reflexivity|].
      destruct (String.eqb_spec k' k''); [subst; tauto|]. apply IH'. tauto. }
    reflexivity.
  - reflexivity.
Qed.

Lemma get_obj_other : forall k x ps k', k' <> k ->
  get (JObj ((k, x) :: ps)) k' = get (JObj ps) k'.
Proof.
  intros k x ps k' Hne. simpl. destruct (String.eqb_spec k' k); congruence.
Qed.

Lemma getd_obj_other : forall k x ps k', k' <> k ->
  getd (JObj ((k, x) :: ps)) k' = getd (JObj ps) k'.
Proof. intros. unfold getd. rewrite get_obj_other by assumption. reflexivity. Qed.

Ltac break_M H :=
  repeat (match type of H with
          | context [match ?x with _ => _ end] =>
              lazymatch x with
              | context [match _ with _ => _ end] => fail
              | _ => let E := fresh "E" in
                     first [ destruct x as [[?|?] ?] eqn:E
                           | destruct x eqn:E ]
              end
          end; simpl in H; try discriminate H).

Lemma loadIndexJSON_ok_shape : forall eng data h md h',
  loadIndexJSON eng data h = (Ok md, h') ->
  exists vs, get data "vectors" = Ok (JArr vs) /\
  md = {| meta_spaceName := getd data "spaceName";
          meta_numDimensions := getd data "numDimensions";
          meta_maxElements := js_or (getd data "maxElements") (num_Z 100);
          meta_m := js_or (getd data "m") (num_Z 16);
          meta_efConstruction := js_or (getd data "efConstruction") (num_Z 200);
          meta_randomSeed := js_or (getd data "randomSeed") (num_Z 100) |}.
Proof.
  intros eng data h md h' H.
  unfold loadIndexJSON, mbind, lift, throw, try_recreate, ret, hnsw in H.
  break_M H.
  inversion H; subst. exists xs. split; [auto|].
  unfold getd. rewrite E1, E3. reflexivity.
Qed.

Lemma read_bytes_ok : forall b off k,
  0 <= off -> off + Z.of_nat k <= blen b ->
  read_bytes b off k = Ok (firstn k (skipn (Z.to_nat off) b)).
Proof.
  intros b off k H1 H2. unfold read_bytes.
  rewrite (proj2 (Z.leb_le 0 off) H1), (proj2 (Z.leb_le _ _) H2). reflexivity.
Qed.

(** The binary loader once the header has been read. *)
Lemma loadIndexBinary_unfold : forall eng B h,
  40 <= blen B ->
  loadIndexBinary eng B h =
  (if negb (hdr_u8 B 0 =? 1) then (Err (UnsupportedVersion (hdr_u8 B 0)), h)
   else
     let d := hdr_u32 B 2 in
     let n := hdr_u32 B 22 in
     if (d <=? 0) || (100000 <? d) then (Err (InvalidNumDimensions d), h)
     else if (n <? 0) || (100000000 <? n) then (Err (InvalidNumVectors n), h)
     else if blen B <? 40 + n * (4 + d * 4)
     then (Err (SizeMismatch (40 + n * (4 + d * 4)) (blen B)), h)
     else
       try_recreate (
         let* _ := hnsw eng (CNew (JStr (space_name (hdr_u8 B 1))) (num_Z d)) in
         let* _ := hnsw eng (CInit (num_Z (hdr_u32 B 6)) (num_Z (hdr_u32 B 10))
                                  (num_Z (hdr_u32 B 14)) (num_Z (hdr_u32 B 18))) in
         let* _ := read_vectors eng B d 0 (Z.to_nat n) 40 in
         ret {| meta_spaceName := JStr (space_name (hdr_u8 B 1));
                meta_numDimensions := num_Z d;
                meta_maxElements := num_Z (hdr_u32 B 6);
                meta_m := num_Z (hdr_u32 B 10);
                meta_efConstruction := num_Z (hdr_u32 B 14);
                meta_randomSeed := num_Z (hdr_u32 B 18) |}) h).
Proof.
  intros eng B h HB. unfold loadIndexBinary. cbv zeta. zbool.
  unfold readUInt8, readUInt32LE.
  rewrite !read_bytes_ok by (simpl; lia).
  change (0 + 1 + 1 + 4 + 4 + 4 + 4 + 4 + 4 + 14) with 40.
  change (0 + 1 + 1 + 4 + 4 + 4 + 4 + 4) with 22.
  change (0 + 1 + 1 + 4 + 4 + 4 + 4) with 18.
  change (0 + 1 + 1 + 4 + 4 + 4) with 14.
  change (0 + 1 + 1 + 4 + 4) with 10.
  change (0 + 1 + 1 + 4) with 6.
  change (0 + 1 + 1) with 2.
  change (0 + 1) with 1.
  cbv [mbind lift rbind throw hdr_u8 hdr_u32].
  repeat (match goal with |- context [if ?c then _ else _] => destruct c end);
    reflexivity.
Qed.

Lemma inserted_app : forall h1 h2, inserted (h1 ++ h2) = (inserted h1 + inserted h2)%nat.
Proof. intros. unfold inserted. rewrite filter_app, length_app. reflexivity. Qed.

Lemma add_json_vectors_inserted : forall eng nd vs h u h',
  add_json_vectors eng nd vs h = (Ok u, h') ->
  inserted h' = (inserted h + length vs)%nat.
Proof.
  intros eng nd vs. induction vs as [|v vs IH]; intros h u h' H; simpl in H.
  - inversion H; subst. simpl. lia.
  - unfold mbind, lift, throw, hnsw in H.
    destruct (get v "label") as [l|]; [|discriminate].
    destruct (get v "point") as [p|]; [|discriminate].
    destruct (is_number l); simpl in H; [|discriminate].
    destruct p; try discriminate.
    destruct (length_is xs nd); simpl in H; [|discriminate].
    destruct (eng h (CAdd (JArr xs) l false)); [discriminate|].
    apply IH in H. rewrite H, inserted_app. cbn [inserted filter is_add length]. lia.
Qed.

Lemma add_json_vectors_stops_at_invalid : forall eng nd good bad rest h,
  engine_total eng ->
  Forall (fun v => json_record_ok nd v = true) good ->
  json_record_ok nd bad = false ->
  exists e, add_json_vectors eng nd (good ++ bad :: rest) h =
            (Err e, h ++ map json_record_call good).
Proof.
  intros eng nd good bad rest h Heng Hgood Hbad.
  revert h. induction Hgood as [|v good Hv Hgood IH]; intros h; simpl.
  - unfold json_record_ok in Hbad. unfold mbind, lift, throw. rewrite app_nil_r.
    destruct (get bad "label") as [l|e]; [|eexists; reflexivity].
    destruct (get bad "point") as [p|e]; [|eexists; reflexivity].
    destruct (is_number l) eqn:Hl; simpl; [|eexists; reflexivity].
    destruct p; try (eexists; reflexivity).
    simpl in Hbad. rewrite Hbad. eexists; reflexivity.
  - unfold json_record_ok in Hv. unfold mbind, lift, throw, hnsw.
    destruct (get v "label") as [l|] eqn:El; [|discriminate].
    destruct (get v "point") as [p|] eqn:Ep; [|discriminate].
    destruct p; try discriminate. apply andb_prop in Hv as [Hl Hlen].
    rewrite Hl, Hlen. simpl. rewrite Heng.
    destruct (IH (h ++ [CAdd (JArr xs) l false])) as [e He].
    exists e. unfold mbind, lift, throw, hnsw in He. rewrite He.
    unfold json_record_call, getd. simpl. rewrite El, Ep, <- app_assoc.
    reflexivity.
Qed.

Lemma loadIndexJSON_ok_inserted : forall eng data h md h',
  loadIndexJSON eng data h = (Ok md, h') ->
  exists vs, get data "vectors" = Ok (JArr vs) /\
             inserted h' = (inserted h + length vs)%nat.
Proof.
  intros eng data h md h' H.
  unfold loadIndexJSON, mbind, lift, throw, try_recreate, ret, hnsw in H.
  break_M H.
  inversion H; subst. exists xs. split; [auto|].
  match goal with E : add_json_vectors _ _ _ _ = _ |- _ =>
    apply add_json_vectors_inserted in E; rewrite E end.
  rewrite !inserted_app. cbn [inserted filter is_add length]. lia.
Qed.

(** Exceptions raised from inside the [try] block of the text loader. *)
Definition is_recreate (e : exn) : bool :=
  match e with RecreateFailed _ => true | _ => false end.

Lemma get_err : forall v k e, get v k = Err e -> e = TypeError.
Proof. intros v k e H. destruct v; simpl in H; congruence. Qed.

Lemma loadIndexJSON_toplevel_fail : forall eng data h,
  json_toplevel_ok data = false ->
  exists e, loadIndexJSON eng data h = (Err e, h) /\ is_recreate e = false.
Proof.
  intros eng data h Ht. unfold json_toplevel_ok in Ht.
  unfold loadIndexJSON, mbind, lift, throw.
  destruct (get data "vectors") as [v|e] eqn:Ev;
    [|apply get_err in Ev; subst; eexists; split; reflexivity].
  destruct v; try (eexists; split; reflexivity).
  destruct (get data "numDimensions") as [nd|e] eqn:En;
    [|apply get_err in En; subst; eexists; split; reflexivity].
  destruct (negb (is_number nd) || num_le0 nd) eqn:E1;
    [eexists; split; reflexivity|].
  destruct (get data "spaceName") as [sp|e] eqn:Es;
    [|apply get_err in Es; subst; eexists; split; reflexivity].
  destruct (negb (truthy sp) || negb (valid_space sp)) eqn:E2;
    [eexists; split; reflexivity|].
  exfalso.
  destruct (is_number nd), (num_le0 nd), (truthy sp), (valid_space sp);
    discriminate.
Qed.

Lemma loadIndexJSON_fails_after_prefix_aux : forall eng data good bad rest h,
  engine_total eng ->
  json_toplevel_ok data = true ->
  get data "vectors" = Ok (JArr (good ++ bad :: rest)) ->
  Forall (fun v => json_record_ok (getd data "numDimensions") v = true) good ->
  json_record_ok (getd data "numDimensions") bad = false ->
  exists e, loadIndexJSON eng data h =
    (Err (RecreateFailed e), h ++ json_setup_calls data ++ map json_record_call good).
Proof.
  intros eng data good bad rest h Heng Ht Hv Hgood Hbad.
  unfold json_toplevel_ok in Ht. rewrite Hv in Ht.
  destruct (get data "numDimensions") as [nd|] eqn:En; [|discriminate].
  destruct (get data "spaceName") as [sp|] eqn:Es; [|discriminate].
  assert (Hnd : getd data "numDimensions" = nd) by (unfold getd; rewrite En; reflexivity).
  assert (Hsp : getd data "spaceName" = sp) by (unfold getd; rewrite Es; reflexivity).
  rewrite Hnd in Hgood, Hbad.
  destruct (add_json_vectors_stops_at_invalid eng nd good bad rest
              (h ++ json_setup_calls data) Heng Hgood Hbad) as [e He].
  exists e. unfold json_setup_calls in He. rewrite Hnd, Hsp in He.
  apply andb_prop in Ht as [Ht Hvs]. apply andb_prop in Ht as [Ht Htr].
  apply andb_prop in Ht as [Hn Hl]. apply negb_true_iff in Hl.
  unfold loadIndexJSON, mbind, lift, throw, try_recreate, ret, hnsw.
  rewrite Hv, En, Es, Hn, Hl, Htr, Hvs. simpl. rewrite !Heng.
  rewrite <- !app_assoc. simpl. rewrite He. rewrite <- app_assoc.
  unfold json_setup_calls. rewrite Hnd, Hsp. reflexivity.
Qed.

Lemma blen_app : forall b1 b2, blen (b1 ++ b2) = blen b1 + blen b2.
Proof. intros. unfold blen. rewrite length_app. lia. Qed.

Lemma read_bytes_app : forall pre extra off k,
  0 <= off -> off + Z.of_nat k <= blen pre ->
  read_bytes (pre ++ extra) off k = read_bytes pre off k.
Proof.
  intros pre extra off k H1 H2.
  rewrite !read_bytes_ok by (rewrite ?blen_app; unfold blen in *; lia).
  f_equal. rewrite skipn_app, firstn_app, length_skipn.
  unfold blen in H2.
  replace (k - (length pre - Z.to_nat off))%nat with 0%nat by lia.
  simpl. apply app_nil_r.
Qed.

Lemma read_point_off : forall B i j k off xs off',
  read_point B i j k off = Ok (xs, off') -> off' = off + 4 * Z.of_nat k.
Proof.
  intros B i j k. revert j. induction k as [|k IH]; intros j off xs off' H; simpl in H.
  - inversion H; subst. lia.
  - destruct (off + 4 >? blen B); [discriminate|].
    destruct (readFloatLE B off); simpl in H; [|discriminate].
    destruct (read_point B i (j + 1) k (off + 4)) as [[ys o]|] eqn:E;
      simpl in H; [|discriminate].
    inversion H; subst. apply IH in E. lia.
Qed.

Lemma read_point_total : forall B i j k off,
  0 <= off -> off + 4 * Z.of_nat k <= blen B ->
  exists xs, read_point B i j k off = Ok (xs, off + 4 * Z.of_nat k).
Proof.
  intros B i j k. revert j. induction k as [|k IH]; intros j off H1 H2;
    cbn [read_point].
  - exists []. f_equal. f_equal. lia.
  - rewrite Z.gtb_ltb, (proj2 (Z.ltb_ge _ _)) by lia.
    unfold readFloatLE. rewrite read_bytes_ok by lia.
    destruct (IH (j + 1) (off + 4)) as [xs E]; [lia|lia|].
    cbn [rbind]. rewrite E. cbn [rbind fst snd]. eexists. do 2 f_equal. lia.
Qed.

Lemma read_point_app : forall pre extra i j k off,
  0 <= off -> off + 4 * Z.of_nat k <= blen pre ->
  read_point (pre ++ extra) i j k off = read_point pre i j k off.
Proof.
  intros pre extra i j k. revert j. induction k as [|k IH]; intros j off H1 H2; simpl.
  - reflexivity.
  - rewrite !Z.gtb_ltb, blen_app.
    rewrite (proj2 (Z.ltb_ge _ _)) by (unfold blen in *; lia).
    rewrite (proj2 (Z.ltb_ge _ _)) by lia.
    unfold readFloatLE. rewrite read_bytes_app by lia.
    rewrite IH by lia. reflexivity.
Qed.

Lemma read_vectors_inserted : forall eng B d i k off h u h',
  read_vectors eng B d i k off h = (Ok u, h') ->
  inserted h' = (inserted h + k)%nat.
Proof.
  intros eng B d i k. revert i.
  induction k as [|k IH]; intros i off h u h' H; cbn [read_vectors] in H.
  - unfold ret in H. inversion H; subst. lia.
  - destruct (off + 4 >? blen B); [discriminate|].
    unfold mbind, lift, hnsw in H.
    destruct (readUInt32LE B off) as [l|]; [|discriminate].
    destruct (read_point B i 0 (Z.to_nat d) (off + 4)) as [pr|]; [|discriminate].
    destruct (eng h _); [discriminate|].
    apply IH in H. rewrite H, inserted_app. cbn [inserted filter is_add length]. lia.
Qed.

Lemma read_vectors_total : forall eng B d i k off h,
  engine_total eng -> 0 <= d -> 0 <= off ->
  off + Z.of_nat k * (4 + d * 4) <= blen B ->
  exists h', read_vectors eng B d i k off h = (Ok tt, h').
Proof.
  intros eng B d i k. revert i.
  induction k as [|k IH]; intros i off h Heng Hd Hoff Hk; cbn [read_vectors].
  - exists h. reflexivity.
  - rewrite Nat2Z.inj_succ in Hk.
    rewrite Z.gtb_ltb, (proj2 (Z.ltb_ge _ _)) by nia.
    destruct (read_point_total B i 0 (Z.to_nat d) (off + 4)) as [xs E]; [lia|nia|].
    unfold mbind, lift, hnsw, readUInt32LE. rewrite read_bytes_ok by nia.
    cbn [rbind]. rewrite E, Heng. cbn [fst snd].
    apply IH; [assumption|assumption|lia|]. rewrite Z2Nat.id by lia. nia.
Qed.

Lemma read_vectors_app : forall eng pre extra d i k off h,
  0 <= d -> 0 <= off -> off + Z.of_nat k * (4 + d * 4) <= blen pre ->
  read_vectors eng (pre ++ extra) d i k off h = read_vectors eng pre d i k off h.
Proof.
  intros eng pre extra d i k. revert i.
  induction k as [|k IH]; intros i off h Hd Hoff Hk; cbn [read_vectors].
  - reflexivity.
  - rewrite Nat2Z.inj_succ in Hk. rewrite !Z.gtb_ltb, blen_app.
    rewrite (proj2 (Z.ltb_ge (blen pre + blen extra) _)) by (unfold blen in *; nia).
    rewrite (proj2 (Z.ltb_ge (blen pre) _)) by nia.
    unfold mbind, lift, hnsw, readUInt32LE. rewrite read_bytes_app by nia.
    rewrite read_point_app by (rewrite ?Z2Nat.id by lia; nia).
    destruct (read_bytes pre off 4) as [bs|]; cbn [rbind]; [|reflexivity].
    destruct (read_point pre i 0 (Z.to_nat d) (off + 4)) as [[xs o]|] eqn:E;
      [|reflexivity].
    apply read_point_off in E. rewrite Z2Nat.id in E by lia.
    destruct (eng h _); [reflexivity|].
    cbn [fst snd]. apply IH; [lia|lia|]. nia.
Qed.

Lemma loadIndexBinary_ok_inserted : forall eng B h md h',
  loadIndexBinary eng B h = (Ok md, h') ->
  inserted h' = (inserted h + Z.to_nat (hdr_u32 B 22))%nat.
Proof.
  intros eng B h md h' H.
  destruct (Z.lt_ge_cases (blen B) 40) as [Hs|Hs].
  - unfold loadIndexBinary in H. cbv zeta in H.
    rewrite (proj2 (Z.ltb_lt _ _) Hs) in H. discriminate.
  - rewrite loadIndexBinary_unfold in H by exact Hs. cbv zeta in H.
    repeat (match type of H with context [if ?c then _ else _] => destruct c end;
            try discriminate H).
    cbv [try_recreate mbind hnsw ret] in H. break_M H.
    inversion H; subst.
    match goal with E : read_vectors _ _ _ _ _ _ _ = _ |- _ =>
      apply read_vectors_inserted in E; rewrite E end.
    rewrite !inserted_app. cbn [inserted filter is_add length]. lia.
Qed.

Lemma firstn_skipn_app : forall (pre extra : list Z) off k,
  (Z.to_nat off + k <= length pre)%nat ->
  firstn k (skipn (Z.to_nat off) (pre ++ extra)) = firstn k (skipn (Z.to_nat off) pre).
Proof.
  intros pre extra off k H.
  rewrite skipn_app, firstn_app, length_skipn.
  replace (k - (length pre - Z.to_nat off))%nat with 0%nat by lia.
  simpl. apply app_nil_r.
Qed.

Lemma write_bytes_len : forall b off bs b',
  write_bytes b off bs = Ok b' ->
  length b' = length b /\ 0 <= off /\ off + Z.of_nat (length bs) <= blen b.
Proof.
  intros b off bs b' H. unfold write_bytes in H.
  destruct (0 <=? off) eqn:E1; [|discriminate]. simpl in H.
  destruct (off + Z.of_nat (length bs) <=? blen b) eqn:E2; [|discriminate].
  inversion H; subst. apply Z.leb_le in E1. apply Z.leb_le in E2.
  unfold blen in *. split; [|lia].
  unfold buf_set. rewrite !length_app, length_firstn, length_skipn. lia.
Qed.

Lemma writeUInt8_len : forall b v off b',
  writeUInt8 b v off = Ok b' -> length b' = length b /\ 0 <= off /\ off + 1 <= blen b.
Proof.
  intros b v off b' H. unfold writeUInt8 in H. cbv zeta in H.
  destruct (out_of_range _ _); [discriminate|]. apply write_bytes_len in H. exact H.
Qed.

Lemma writeUInt32LE_len : forall b v off b',
  writeUInt32LE b v off = Ok b' -> length b' = length b.
Proof.
  intros b v off b' H. unfold writeUInt32LE in H. cbv zeta in H.
  destruct (out_of_range _ _); [discriminate|]. apply write_bytes_len in H. apply H.
Qed.

Lemma fill0_len : forall b off en b', fill0 b off en = Ok b' -> length b' = length b.
Proof.
  intros b off en b' H. unfold fill0 in H.
  destruct ((0 <=? off) && (off <=? en) && (en <=? blen b)) eqn:E; [|discriminate].
  inversion H; subst. apply andb_prop in E as [E E3]. apply andb_prop in E as [E1 E2].
  apply Z.leb_le in E1, E2, E3. unfold blen in E3.
  unfold buf_set. rewrite !length_app, length_firstn, length_skipn, repeat_length. lia.
Qed.

Lemma write_point_len : forall point buf off b' o',
  write_point buf off point = Ok (b', o') -> length b' = length buf.
Proof.
  induction point as [|v point IH]; intros buf off b' o' H; simpl in H.
  - inversion H; subst. reflexivity.
  - destruct (negb (is_number v) || negb (num_finite (to_number v))); [discriminate|].
    unfold writeFloatLE in H.
    destruct (write_bytes buf off _) as [b1|] eqn:E; [|discriminate].
    apply write_bytes_len in E. simpl in H. apply IH in H. lia.
Qed.

Lemma write_vectors_len : forall d vectors buf off b' o',
  write_vectors d buf off vectors = Ok (b', o') -> length b' = length buf.
Proof.
  intros d vectors. induction vectors as [|[label point] vectors IH];
    intros buf off b' o' H; simpl in H.
  - inversion H; subst. reflexivity.
  - destruct (negb (Z.of_nat (length point) =? d)); [discriminate|].
    destruct (writeUInt32LE buf label off) as [b1|] eqn:E1; [|discriminate].
    simpl in H. apply writeUInt32LE_len in E1.
    destruct (write_point b1 (off + 4) point) as [[b2 o2]|] eqn:E2; [|discriminate].
    simpl in H. apply write_point_len in E2. apply IH in H. lia.
Qed.

Lemma allocUnsafe_len : forall garbage size,
  length (allocUnsafe garbage size) = Z.to_nat size.
Proof.
  intros. unfold allocUnsafe. rewrite length_firstn, length_app, repeat_length. lia.
Qed.

Lemma saveIndexBinary_body_len : forall garbage gm md code d size vectors out,
  saveIndexBinary_body garbage gm md code d size vectors = Ok out ->
  Z.of_nat (length out) = size.
Proof.
  intros garbage gm md code d size vectors out H.
  unfold saveIndexBinary_body in H. cbv zeta in H.
  repeat (match type of H with
          | rbind ?m _ = _ =>
              let E := fresh "E" in
              destruct m as [?|?] eqn:E; cbn [rbind] in H; [|discriminate H]
          end).
  inversion H; subst.
  repeat match goal with
         | E : writeUInt8 _ _ _ = Ok _ |- _ => apply writeUInt8_len in E
         | E : writeUInt32LE _ _ _ = Ok _ |- _ => apply writeUInt32LE_len in E
         | E : fill0 _ _ _ = Ok _ |- _ => apply fill0_len in E
         | E : write_vectors _ _ _ _ = Ok ?p |- _ =>
             destruct p; apply write_vectors_len in E
         end.
  unfold blen in *. rewrite allocUnsafe_len in *. simpl. lia.
Qed.

Lemma le_bytes_length : forall k z, length (le_bytes k z) = k.
Proof. induction k as [|k IH]; intros z; simpl; [reflexivity|rewrite IH; reflexivity]. Qed.

Lemma le_value_le_bytes : forall k z, le_value (le_bytes k z) = z mod 2 ^ (8 * Z.of_nat k).
Proof.
  induction k as [|k IH]; intros z; cbn [le_bytes le_value].
  - rewrite Z.mul_0_r, Z.pow_0_r, Z.mod_1_r. reflexivity.
  - rewrite IH, Nat2Z.inj_succ, Z.mul_succ_r, Z.pow_add_r by lia.
    rewrite (Z.mul_comm (2 ^ (8 * Z.of_nat k)) (2 ^ 8)).
    rewrite Z.rem_mul_r by (try apply Z.pow_pos_nonneg; lia).
    reflexivity.
Qed.

Lemma f32_of_bits_mod : forall w, f32_of_bits (w mod 2 ^ 32) = f32_of_bits w.
Proof.
  intros w.
  assert (Hb : forall i, 0 <= i < 32 -> Z.testbit (w mod 2 ^ 32) i = Z.testbit w i)
    by (intros i Hi; apply Z.mod_pow2_bits_low; lia).
  assert (HE : Z.land (Z.shiftr (w mod 2 ^ 32) 23) 255 = Z.land (Z.shiftr w 23) 255).
  { apply Z.bits_inj'. intros i Hi. rewrite !Z.land_spec.
    change 255 with (Z.ones 8). destruct (Z.lt_ge_cases i 8).
    - rewrite !Z.shiftr_spec by lia. rewrite Hb by lia. reflexivity.
    - rewrite Z.ones_spec_high by lia. rewrite !andb_false_r. reflexivity. }
  assert (HM : Z.land (w mod 2 ^ 32) (2 ^ 23 - 1) = Z.land w (2 ^ 23 - 1)).
  { apply Z.bits_inj'. intros i Hi. rewrite !Z.land_spec.
    change (2 ^ 23 - 1) with (Z.ones 23). destruct (Z.lt_ge_cases i 23).
    - rewrite Hb by lia. reflexivity.
    - rewrite Z.ones_spec_high by lia. rewrite !andb_false_r. reflexivity. }
  unfold f32_of_bits. rewrite Hb by lia. rewrite HE, HM. reflexivity.
Qed.

Lemma to_uint32_Z : forall z, 0 <= z <= 2 ^ 32 - 1 -> to_uint32 (JFin (inject_Z z)) = z.
Proof. intros z Hz. unfold to_uint32. rewrite Qfloor_Z. apply Z.mod_small. lia. Qed.

Lemma out_of_range_Z : forall z max, 0 <= z <= max ->
  out_of_range (JFin (inject_Z z)) max = false.
Proof.
  intros z max Hz. unfold out_of_range.
  assert (H1 : Qle_bool (inject_Z z) (inject_Z max) = true)
    by (apply Qle_bool_iff; rewrite <- Zle_Qle; lia).
  assert (H2 : Qle_bool 0 (inject_Z z) = true)
    by (apply Qle_bool_iff; change 0%Q with (inject_Z 0); rewrite <- Zle_Qle; lia).
  rewrite H1, H2. reflexivity.
Qed.

Lemma truthy_num_Z : forall z, z <> 0 -> truthy (num_Z z) = true.
Proof.
  intros z Hz. unfold truthy, num_Z. destruct (Qeq_bool (inject_Z z) 0) eqn:E; [|reflexivity].
  apply Qeq_bool_iff in E. unfold Qeq in E. simpl in E. lia.
Qed.

Lemma buf_set_frontier : forall (P G bs : list Z),
  (length bs <= length G)%nat ->
  buf_set (P ++ G) (length P) bs = (P ++ bs) ++ skipn (length bs) G.
Proof.
  intros P G bs H. unfold buf_set.
  rewrite firstn_app, Nat.sub_diag, firstn_O, app_nil_r, firstn_all.
  rewrite skipn_app.
  replace (skipn (length P + length bs) P) with (@nil Z)
    by (symmetry; apply skipn_all2; lia).
  replace (length P + length bs - length P)%nat with (length bs) by lia.
  rewrite <- app_assoc. reflexivity.
Qed.

Lemma write_bytes_frontier : forall P G off bs,
  off = Z.of_nat (length P) -> (length bs <= length G)%nat ->
  write_bytes (P ++ G) off bs = Ok ((P ++ bs) ++ skipn (length bs) G).
Proof.
  intros P G off bs -> H. unfold write_bytes, blen. rewrite length_app.
  rewrite (proj2 (Z.leb_le _ _)) by lia. rewrite (proj2 (Z.leb_le _ _)) by lia.
  simpl. rewrite Nat2Z.id, buf_set_frontier by exact H. reflexivity.
Qed.

Lemma writeUInt8_frontier : forall P G off z,
  off = Z.of_nat (length P) -> 0 <= z <= 255 -> (1 <= length G)%nat ->
  writeUInt8 (P ++ G) (num_Z z) off = Ok ((P ++ le_bytes 1 z) ++ skipn 1 G).
Proof.
  intros P G off z Ho Hz HG. unfold writeUInt8, num_Z. cbv zeta. cbn [to_number].
  rewrite out_of_range_Z by exact Hz. rewrite to_uint32_Z by lia.
  apply write_bytes_frontier; [exact Ho|]. rewrite le_bytes_length. exact HG.
Qed.

Lemma writeUInt32LE_frontier : forall P G off v z,
  off = Z.of_nat (length P) -> v = num_Z z -> 0 <= z <= 2 ^ 32 - 1 ->
  (4 <= length G)%nat ->
  writeUInt32LE (P ++ G) v off = Ok ((P ++ le_bytes 4 z) ++ skipn 4 G).
Proof.
  intros P G off v z Ho -> Hz HG. unfold writeUInt32LE, num_Z. cbv zeta. cbn [to_number].
  rewrite out_of_range_Z by exact Hz. rewrite to_uint32_Z by exact Hz.
  apply write_bytes_frontier; [exact Ho|]. rewrite le_bytes_length. exact HG.
Qed.

Lemma fill0_frontier : forall P G off en k,
  off = Z.of_nat (length P) -> en = off + Z.of_nat k -> (k <= length G)%nat ->
  fill0 (P ++ G) off en = Ok ((P ++ repeat 0 k) ++ skipn k G).
Proof.
  intros P G off en k -> -> H. unfold fill0, blen. rewrite length_app.
  rewrite (proj2 (Z.leb_le 0 _)) by lia. rewrite (proj2 (Z.leb_le _ (_ + _))) by lia.
  rewrite (proj2 (Z.leb_le _ (Z.of_nat (_ + _)))) by lia. simpl.
  rewrite Nat2Z.id.
  replace (Z.to_nat (Z.of_nat (length P) + Z.of_nat k - Z.of_nat (length P))) with k by lia.
  rewrite <- (repeat_length 0 k) at 3. rewrite buf_set_frontier by (rewrite repeat_length; exact H).
  reflexivity.
Qed.

Lemma point_bytes_cons : forall v point,
  point_bytes (v :: point) = le_bytes 4 (f32_bits (to_number v)) ++ point_bytes point.
Proof. reflexivity. Qed.

Lemma point_bytes_length : forall point, length (point_bytes point) = (4 * length point)%nat.
Proof.
  induction point as [|v point IH]; [reflexivity|].
  rewrite point_bytes_cons, length_app, le_bytes_length, IH. simpl. lia.
Qed.

Lemma write_point_frontier : forall point P G off,
  off = Z.of_nat (length P) -> forallb finite_num point = true ->
  (length (point_bytes point) <= length G)%nat ->
  write_point (P ++ G) off point =
  Ok ((P ++ point_bytes point) ++ skipn (length (point_bytes point)) G,
      Z.of_nat (length (P ++ point_bytes point))).
Proof.
  induction point as [|v point IH]; intros P G off Ho Hf HG; cbn [write_point].
  - cbn [point_bytes concat map length skipn]. rewrite !app_nil_r. subst. reflexivity.
  - simpl in Hf. apply andb_prop in Hf as [Hv Hf].
    destruct v as [| | |[q| | |]| | | |]; try discriminate Hv.
    cbn [is_number to_number num_finite negb orb].
    rewrite point_bytes_cons, length_app, le_bytes_length in *.
    unfold writeFloatLE. cbn [to_number].
    rewrite write_bytes_frontier by (rewrite ?le_bytes_length; lia).
    cbn [rbind]. rewrite le_bytes_length.
    rewrite IH; [|rewrite length_app, le_bytes_length; lia|exact Hf
                |rewrite length_skipn; lia].
    rewrite skipn_skipn, <- !app_assoc, !length_app, le_bytes_length.
    replace (length (point_bytes point) + 4)%nat
      with (4 + length (point_bytes point))%nat by lia.
    reflexivity.
Qed.

Lemma record_bytes_length : forall d r,
  valid_record d r -> length (record_bytes r) = (4 + 4 * Z.to_nat d)%nat.
Proof.
  intros d [label point] [_ [Hl _]]. unfold record_bytes.
  cbn [fst snd] in *.
  rewrite length_app, le_bytes_length, point_bytes_length, Hl. lia.
Qed.

Lemma record_bytes_u32 : forall z point, 0 <= z <= 2 ^ 32 - 1 ->
  record_bytes (num_Z z, point) = le_bytes 4 z ++ point_bytes point.
Proof.
  intros z point Hz. unfold record_bytes, num_Z. cbn [fst snd to_number].
  rewrite to_uint32_Z by exact Hz. reflexivity.
Qed.

Lemma write_vectors_frontier : forall d vectors P G off,
  0 <= d -> off = Z.of_nat (length P) -> Forall (valid_record d) vectors ->
  (length (concat (map record_bytes vectors)) <= length G)%nat ->
  write_vectors d (P ++ G) off vectors =
  Ok ((P ++ concat (map record_bytes vectors)) ++
        skipn (length (concat (map record_bytes vectors))) G,
      Z.of_nat (length (P ++ concat (map record_bytes vectors)))).
Proof.
  intros d vectors. induction vectors as [|[label point] vectors IH];
    intros P G off Hd Ho Hv HG; cbn [write_vectors].
  - cbn [concat map length skipn]. rewrite !app_nil_r. subst. reflexivity.
  - inversion Hv as [|r rs Hr Hrs]; subst.
    destruct Hr as [[z [Hlab Hz]] [Hlen Hfin]]. cbn [fst snd] in *.
    cbn [map concat] in HG |- *. subst label.
    rewrite (record_bytes_u32 z point Hz) in HG |- *.
    rewrite !length_app, le_bytes_length in HG.
    rewrite Hlen, Z2Nat.id, Z.eqb_refl by exact Hd. cbn [negb].
    rewrite (writeUInt32LE_frontier P G _ _ z) by (reflexivity || lia).
    cbn [rbind].
    rewrite write_point_frontier; [|rewrite length_app, le_bytes_length; lia
                                  |exact Hfin|rewrite length_skipn; lia].
    cbn [rbind fst snd].
    rewrite IH; [|exact Hd|reflexivity|exact Hrs|rewrite !length_skipn; lia].
    rewrite !skipn_skipn, <- !app_assoc, !length_app, le_bytes_length.
    match goal with
    | |- Ok (?L, ?o1) = Ok (?R, ?o2) =>
        match L with context [skipn ?n1 G] =>
          match R with context [skipn ?n2 G] => replace n1 with n2 by lia end end;
        replace o1 with o2 by lia
    end.
    reflexivity.
Qed.

Lemma valid_space_cases : forall sp, valid_space (JStr sp) = true ->
  sp = "l2" \/ sp = "ip" \/ sp = "cosine".
Proof.
  intros sp H. unfold valid_space in H.
  destruct (String.eqb_spec sp "l2"); [auto|].
  destruct (String.eqb_spec sp "ip"); [auto|].
  destruct (String.eqb_spec sp "cosine"); [auto|discriminate].
Qed.

Lemma valid_space_facts : forall sp, valid_space (JStr sp) = true ->
  truthy (JStr sp) = true /\ 0 <= space_code (JStr sp) <= 2 /\
  space_name (space_code (JStr sp)) = sp.
Proof.
  intros sp H. apply valid_space_cases in H as [ -> | [ -> | -> ] ];
    (split; [reflexivity|split; [cbv; split; discriminate|reflexivity]]).
Qed.

Lemma writeUInt32LE_frontier_Z : forall P G off z,
  off = Z.of_nat (length P) -> 0 <= z <= 2 ^ 32 - 1 -> (4 <= length G)%nat ->
  writeUInt32LE (P ++ G) (num_Z z) off = Ok ((P ++ le_bytes 4 z) ++ skipn 4 G).
Proof. intros. apply writeUInt32LE_frontier; auto. Qed.

Lemma records_bytes_length : forall d vectors, Forall (valid_record d) vectors ->
  length (concat (map record_bytes vectors)) = (length vectors * (4 + 4 * Z.to_nat d))%nat.
Proof.
  intros d vectors H. induction H as [|r rs Hr Hrs IH]; [reflexivity|].
  cbn [map concat length]. rewrite length_app, IH, (record_bytes_length d r Hr). lia.
Qed.

Ltac side := rewrite ?length_app, ?le_bytes_length, ?length_skipn, ?repeat_length;
  cbn [length]; lia.

Lemma saveIndexBinary_bytes : forall garbage gm md sp d me m ef seed vectors,
  get md "spaceName" = Ok (JStr sp) -> valid_space (JStr sp) = true ->
  getd md "maxElements" = num_Z me -> getd md "m" = num_Z m ->
  getd md "efConstruction" = num_Z ef -> getd md "randomSeed" = num_Z seed ->
  0 < me <= 2 ^ 32 - 1 -> 0 < m <= 2 ^ 32 - 1 ->
  0 < ef <= 2 ^ 32 - 1 -> 0 < seed <= 2 ^ 32 - 1 ->
  1 <= d <= 100000 -> Z.of_nat (length vectors) <= 100000000 ->
  Forall (valid_record d) vectors ->
  saveIndexBinary garbage gm md d vectors =
  Ok (header_bytes 1 (space_code (JStr sp)) d me m ef seed (Z.of_nat (length vectors)) ++
      concat (map record_bytes vectors)).
Proof.
  intros garbage gm md sp d me m ef seed vectors Hsp Hv Hme Hm Hef Hseed
    Hme' Hm' Hef' Hseed' Hd Hn Hrec.
  destruct (valid_space_facts sp Hv) as [Ht [Hc _]].
  pose proof (records_bytes_length d vectors Hrec) as HK.
  set (K := (length vectors * (4 + 4 * Z.to_nat d))%nat) in HK.
  unfold saveIndexBinary. rewrite Hsp. cbn [rbind]. cbv zeta.
  unfold saveIndexBinary_body. cbv zeta.
  rewrite Hme, Hm, Hef, Hseed. unfold js_or_call, js_or.
  rewrite Ht, !truthy_num_Z by lia. cbn [rbind].
  remember (allocUnsafe garbage _) as G0 eqn:HG0.
  assert (HL : length G0 = (40 + K)%nat).
  { subst G0 K. rewrite allocUnsafe_len. rewrite Z2Nat.inj_add, Z2Nat.inj_mul by lia.
    rewrite Nat2Z.id, Z2Nat.inj_add, Z2Nat.inj_mul by lia. simpl. lia. }
  clear HG0. replace G0 with ([] ++ G0) by reflexivity.
  rewrite writeUInt8_frontier by side. cbn [rbind].
  rewrite writeUInt8_frontier by side. cbn [rbind].
  do 6 (rewrite writeUInt32LE_frontier_Z by side; cbn [rbind]).
  rewrite (fill0_frontier _ _ _ _ 14) by side. cbn [rbind].
  rewrite write_vectors_frontier by (try side; assumption). cbn [fst].
  rewrite (skipn_all2 (skipn _ _)) by side. rewrite app_nil_r.
  unfold header_bytes. rewrite <- !app_assoc. reflexivity.
Qed.

Lemma firstn_skipn_frontier : forall (P bs R : list Z),
  firstn (length bs) (skipn (length P) (P ++ bs ++ R)) = bs.
Proof.
  intros P bs R. rewrite skipn_app, skipn_all, Nat.sub_diag. simpl.
  rewrite firstn_app, firstn_all, Nat.sub_diag, firstn_O. apply app_nil_r.
Qed.

Lemma firstn_skipn_le4 : forall (P R : list Z) z,
  firstn 4 (skipn (length P) (P ++ le_bytes 4 z ++ R)) = le_bytes 4 z.
Proof.
  intros P R z. pose proof (firstn_skipn_frontier P (le_bytes 4 z) R) as H.
  rewrite le_bytes_length in H. exact H.
Qed.

Lemma read_point_frontier : forall point P R i j,
  read_point (P ++ point_bytes point ++ R) i j (length point) (Z.of_nat (length P)) =
  Ok (map (fun v => fround (to_number v)) point,
      Z.of_nat (length (P ++ point_bytes point))).
Proof.
  induction point as [|v point IH]; intros P R i j; cbn [read_point length].
  - cbn [map point_bytes concat]. rewrite app_nil_r. reflexivity.
  - rewrite point_bytes_cons, <- app_assoc.
    rewrite Z.gtb_ltb, (proj2 (Z.ltb_ge _ _))
      by (unfold blen; rewrite !length_app, le_bytes_length; lia).
    unfold readFloatLE.
    rewrite read_bytes_ok by (unfold blen; rewrite ?length_app, ?le_bytes_length; lia).
    rewrite Nat2Z.id, firstn_skipn_le4. cbn [rbind]. rewrite le_value_le_bytes.
    change (8 * Z.of_nat 4) with 32. rewrite f32_of_bits_mod.
    replace (Z.of_nat (length P) + 4) with (Z.of_nat (length (P ++ le_bytes 4 (f32_bits (to_number v)))))
      by (rewrite length_app, le_bytes_length; lia).
    rewrite app_assoc, IH. cbn [rbind fst snd map].
    rewrite <- !app_assoc. reflexivity.
Qed.

Lemma read_vectors_frontier : forall d vectors P R i h,
  0 <= d -> Forall (valid_record d) vectors ->
  read_vectors accept_all (P ++ concat (map record_bytes vectors) ++ R) d i
    (length vectors) (Z.of_nat (length P)) h = (Ok tt, h ++ bin_adds vectors).
Proof.
  intros d vectors. induction vectors as [|r rs IH]; intros P R i h Hd Hv;
    cbn [read_vectors length].
  - rewrite app_nil_r. reflexivity.
  - inversion Hv as [|r' rs' Hr Hrs]; subst.
    destruct r as [label point]. destruct Hr as [[z [Hlab Hz]] [Hlen Hfin]].
    cbn [fst snd] in *. subst label.
    cbn [map concat]. rewrite (record_bytes_u32 z point Hz), <- !app_assoc.
    rewrite Z.gtb_ltb, (proj2 (Z.ltb_ge _ _))
      by (unfold blen; rewrite !length_app, le_bytes_length; lia).
    unfold mbind, lift, hnsw, readUInt32LE.
    rewrite read_bytes_ok by (unfold blen; rewrite ?length_app, ?le_bytes_length; lia).
    rewrite Nat2Z.id, firstn_skipn_le4. cbn [rbind]. rewrite le_value_le_bytes.
    change (8 * Z.of_nat 4) with 32. rewrite Z.mod_small by lia.
    replace (Z.of_nat (length P) + 4) with (Z.of_nat (length (P ++ le_bytes 4 z)))
      by (rewrite length_app, le_bytes_length; lia).
    rewrite <- Hlen, app_assoc, read_point_frontier. cbn [rbind fst snd].
    unfold accept_all. rewrite app_assoc, IH by assumption.
    rewrite <- app_assoc. unfold bin_adds. cbn [map fst snd app].
    rewrite map_map. reflexivity.
Qed.

Lemma binary_roundtrip : forall garbage gm md sp d me m ef seed vectors h,
  get md "spaceName" = Ok (JStr sp) -> valid_space (JStr sp) = true ->
  getd md "maxElements" = num_Z me -> getd md "m" = num_Z m ->
  getd md "efConstruction" = num_Z ef -> getd md "randomSeed" = num_Z seed ->
  0 < me <= 2 ^ 32 - 1 -> 0 < m <= 2 ^ 32 - 1 ->
  0 < ef <= 2 ^ 32 - 1 -> 0 < seed <= 2 ^ 32 - 1 ->
  1 <= d <= 100000 -> Z.of_nat (length vectors) <= 100000000 ->
  Forall (valid_record d) vectors ->
  exists out, saveIndexBinary garbage gm md d vectors = Ok out /\
    loadIndexBinary accept_all out h =
    (Ok (rt_meta sp d me m ef seed), h ++ rt_setup sp d me m ef seed ++ bin_adds vectors).
Proof.
  intros garbage gm md sp d me m ef seed vectors h Hsp Hv Hme Hm Hef Hseed
    Hme' Hm' Hef' Hseed' Hd Hn Hrec.
  eexists. split; [apply saveIndexBinary_bytes; eassumption|].
  destruct (valid_space_facts sp Hv) as [_ [Hc Hname]].
  set (c := space_code (JStr sp)) in *.
  set (n := Z.of_nat (length vectors)) in *.
  set (hd := header_bytes 1 c d me m ef seed n).
  assert (Hhd : length hd = 40%nat) by reflexivity.
  assert (HB : blen (hd ++ concat (map record_bytes vectors)) = 40 + n * (4 + d * 4)).
  { unfold blen. rewrite length_app, Hhd, (records_bytes_length d vectors Hrec).
    subst n. rewrite Nat2Z.inj_add, Nat2Z.inj_mul, Nat2Z.inj_add, Nat2Z.inj_mul,
      Z2Nat.id by lia. lia. }
  rewrite loadIndexBinary_unfold by lia. cbv zeta.
  assert (E0 : hdr_u8 (hd ++ concat (map record_bytes vectors)) 0 = le_value (le_bytes 1 1))
    by reflexivity.
  assert (E1 : hdr_u8 (hd ++ concat (map record_bytes vectors)) 1 = le_value (le_bytes 1 c))
    by reflexivity.
  assert (E2 : hdr_u32 (hd ++ concat (map record_bytes vectors)) 2 = le_value (le_bytes 4 d))
    by reflexivity.
  assert (E6 : hdr_u32 (hd ++ concat (map record_bytes vectors)) 6 = le_value (le_bytes 4 me))
    by reflexivity.
  assert (E10 : hdr_u32 (hd ++ concat (map record_bytes vectors)) 10 = le_value (le_bytes 4 m))
    by reflexivity.
  assert (E14 : hdr_u32 (hd ++ concat (map record_bytes vectors)) 14 = le_value (le_bytes 4 ef))
    by reflexivity.
  assert (E18 : hdr_u32 (hd ++ concat (map record_bytes vectors)) 18 = le_value (le_bytes 4 seed))
    by reflexivity.
  assert (E22 : hdr_u32 (hd ++ concat (map record_bytes vectors)) 22 = le_value (le_bytes 4 n))
    by reflexivity.
  rewrite E0, E1, E2, E6, E10, E14, E18, E22, !le_value_le_bytes.
  change (8 * Z.of_nat 1) with 8. change (8 * Z.of_nat 4) with 32.
  rewrite (Z.mod_small c), (Z.mod_small d), (Z.mod_small me), (Z.mod_small m),
    (Z.mod_small ef), (Z.mod_small seed), (Z.mod_small n) by lia.
  change (1 mod 2 ^ 8) with 1. rewrite HB. zbool.
  cbv [try_recreate mbind hnsw ret]. unfold accept_all at 1 2.
  pose proof (read_vectors_frontier d vectors hd [] 0
                ((h ++ [CNew (JStr (space_name c)) (num_Z d)]) ++
                 [CInit (num_Z me) (num_Z m) (num_Z ef) (num_Z seed)]) ltac:(lia) Hrec)
    as Er.
  rewrite app_nil_r, Hhd in Er. subst n. rewrite Nat2Z.id. change (Z.of_nat 40) with 40 in Er.
  rewrite Er, Hname. unfold rt_setup. rewrite <- !app_assoc. reflexivity.
Qed.

Lemma json_rt_arr_cons : forall x xs,
  json_rt (JArr (x :: xs)) =
  match json_rt (JArr xs) with
  | JArr ys => JArr ((match x with JUndef | JFun _ => JNull | _ => json_rt x end) :: ys)
  | v => v
  end.
Proof. reflexivity. Qed.

Lemma json_rt_obj_cons : forall k x ps,
  json_rt (JObj ((k, x) :: ps)) =
  match x with
  | JUndef | JFun _ => json_rt (JObj ps)
  | _ => match json_rt (JObj ps) with
         | JObj qs => JObj ((k, json_rt x) :: qs)
         | v => v
         end
  end.
Proof. intros k x ps. destruct x; reflexivity. Qed.

Lemma json_rt_point : forall pt, forallb finite_num pt = true -> json_rt (JArr pt) = JArr pt.
Proof.
  induction pt as [|x pt IH]; intros H; [reflexivity|].
  simpl in H. apply andb_prop in H as [Hx H].
  rewrite json_rt_arr_cons, IH by exact H.
  destruct x as [| | |[q| | |]| | | |]; try discriminate Hx. reflexivity.
Qed.

Lemma json_rt_records : forall d vectors, Forall (valid_record d) vectors ->
  json_rt (JArr (map record_obj vectors)) = JArr (map record_obj vectors).
Proof.
  intros d vectors H. induction H as [|[label pt] rs [[z [Hl _]] [_ Hf]] Hrs IH];
    [reflexivity|].
  cbn [fst snd] in *. subst label. cbn [map]. rewrite json_rt_arr_cons, IH.
  change (record_obj (num_Z z, pt)) with (JObj [("label", num_Z z); ("point", JArr pt)]).
  rewrite !json_rt_obj_cons, json_rt_point by exact Hf. reflexivity.
Qed.

Lemma num_le0_pos : forall z, 0 < z -> num_le0 (num_Z z) = false.
Proof.
  intros z Hz. unfold num_le0, num_Z.
  destruct (Qle_bool (inject_Z z) 0) eqn:E; [|reflexivity].
  apply Qle_bool_iff in E. change 0%Q with (inject_Z 0) in E.
  rewrite <- Zle_Qle in E. lia.
Qed.

Lemma add_json_vectors_all : forall d vectors h,
  0 <= d -> Forall (valid_record d) vectors ->
  add_json_vectors accept_all (num_Z d) (map record_obj vectors) h =
  (Ok tt, h ++ json_adds vectors).
Proof.
  intros d vectors h Hd H. revert h.
  induction H as [|[label pt] rs [[z [Hl _]] [Hlen _]] Hrs IH]; intros h.
  - cbn. rewrite app_nil_r. reflexivity.
  - cbn [fst snd] in *. subst label. cbn [map add_json_vectors].
    unfold mbind, lift, throw, hnsw. cbn [record_obj get assoc fst snd].
    assert (Hlen' : length_is pt (num_Z d) = true).
    { unfold length_is, num_Z. rewrite Hlen, Z2Nat.id by exact Hd.
      apply Qeq_bool_iff. reflexivity. }
    cbn -[length_is num_Z add_json_vectors accept_all]. rewrite Hlen'.
    cbn [negb is_number num_Z].
    change (accept_all h (CAdd (JArr pt) (num_Z z) false)) with (@None string).
    cbv beta iota zeta. rewrite IH. unfold json_adds. cbn [map]. rewrite <- app_assoc. reflexivity.
Qed.

Lemma json_rt_json_doc : forall s a b c e f g vs,
  json_rt (json_doc (JStr s) (num_Z a) (num_Z b) (num_Z c) (num_Z e) (num_Z f) (num_Z g) vs) =
  JObj [("version", num_Z 1); ("spaceName", JStr s);
        ("numDimensions", num_Z a); ("maxElements", num_Z b);
        ("m", num_Z c); ("efConstruction", num_Z e); ("randomSeed", num_Z f);
        ("numVectors", num_Z g); ("vectors", json_rt (JArr vs))].
Proof. reflexivity. Qed.

Lemma json_roundtrip : forall gm md sp d me m ef seed vectors h,
  get md "spaceName" = Ok (JStr sp) -> valid_space (JStr sp) = true ->
  get md "maxElements" = Ok (num_Z me) -> get md "m" = Ok (num_Z m) ->
  get md "efConstruction" = Ok (num_Z ef) -> get md "randomSeed" = Ok (num_Z seed) ->
  me <> 0 -> m <> 0 -> ef <> 0 -> seed <> 0 -> 1 <= d ->
  Forall (valid_record d) vectors ->
  exists doc, saveIndexJSON gm md d vectors = Ok doc /\
    loadIndexJSON accept_all (json_rt doc) h =
    (Ok (rt_meta sp d me m ef seed), h ++ rt_setup sp d me m ef seed ++ json_adds vectors).
Proof.
  intros gm md sp d me m ef seed vectors h Hsp Hv Hme Hm Hef Hseed
    Hme' Hm' Hef' Hseed' Hd Hrec.
  destruct (valid_space_facts sp Hv) as [Ht _].
  exists (json_doc (JStr sp) (num_Z d) (num_Z me) (num_Z m) (num_Z ef) (num_Z seed)
            (num_Z (Z.of_nat (length vectors))) (map record_obj vectors)).
  split.
  { unfold saveIndexJSON. rewrite Hsp, Hme, Hm, Hef, Hseed. cbn [rbind].
    unfold js_or_call, js_or. rewrite Ht, !truthy_num_Z by lia. reflexivity. }
  rewrite json_rt_json_doc, (json_rt_records d vectors Hrec).
  set (doc := JObj _).
  assert (Gv : get doc "vectors" = Ok (JArr (map record_obj vectors))) by reflexivity.
  assert (Gn : get doc "numDimensions" = Ok (num_Z d)) by reflexivity.
  assert (Gs : get doc "spaceName" = Ok (JStr sp)) by reflexivity.
  assert (Dme : getd doc "maxElements" = num_Z me) by reflexivity.
  assert (Dm : getd doc "m" = num_Z m) by reflexivity.
  assert (Def : getd doc "efConstruction" = num_Z ef) by reflexivity.
  assert (Dseed : getd doc "randomSeed" = num_Z seed) by reflexivity.
  unfold loadIndexJSON, mbind, lift, throw, try_recreate, ret, hnsw.
  rewrite Gv, Gn, Gs, Dme, Dm, Def, Dseed. cbv beta iota zeta.
  replace (is_number (num_Z d)) with true by reflexivity.
  rewrite num_le0_pos, Ht, Hv by lia. cbn [negb orb].
  unfold js_or. rewrite !truthy_num_Z by lia.
  change (accept_all h _) with (@None string). cbv beta iota zeta.
  change (accept_all (h ++ _) _) with (@None string). cbv beta iota zeta.
  rewrite add_json_vectors_all by (lia || assumption).
  unfold rt_setup. rewrite <- !app_assoc. reflexivity.
Qed.


(* ------------------------------------------------------------------ *)
(** ** Claims *)

(** C10: [setLogger] merges its argument with the built-in default
    logger, never with the logger configured before: the new logger does
    not depend on the previous one, each of [log] and [error] is the
    argument's own property when it has one and the default otherwise, so
    [setLogger({error: e})] after [setLogger({log: f})] leaves [log] the
    default no-op. *)
Theorem setLogger_merges_with_default : forall prev prev' customLogger,
  NoDup (map fst (own_props customLogger)) ->
  setLogger prev customLogger = setLogger prev' customLogger /\
  (forall k, k = "log" \/ k = "error" ->
     getd (setLogger prev customLogger) k =
     match assoc k (own_props customLogger) with
     | Some v => v
     | None => getd defaultLogger k
     end) /\
  (forall f e,
     let l := setLogger (setLogger prev (JObj [("log", f)])) (JObj [("error", e)]) in
     getd l "log" = JFun "() => {}" /\ getd l "error" = e).
Proof.
  intros prev prev' c Hnd. split; [reflexivity|]. split.
  - intros k Hk. unfold setLogger, getd, get.
    rewrite assoc_obj_spread by assumption.
    destruct (assoc k (own_props c)); [reflexivity|].
    destruct Hk as [-> | ->]; reflexivity.
  - intros f e. split; reflexivity.
Qed.

Lemma setLogger_merges_with_default_witness :
  NoDup (map fst (own_props (JObj [("log", JFun "f")]))) /\
  getd (setLogger defaultLogger (JObj [("log", JFun "f")])) "error"
  = JFun "console.error".
Proof.
  split.
  - repeat constructor. simpl. tauto.
  - destruct (setLogger_merges_with_default defaultLogger defaultLogger
                (JObj [("log", JFun "f")])) as [_ [Hk _]].
    + repeat constructor. simpl. tauto.
    + rewrite (Hk "error" (or_intror eq_refl)). reflexivity.
Defined.

(** C2 (counterexample): an index object with only the four methods the
    save path reads, and none of [addPoint], [initIndex], [getMaxElements],
    passes [validateIndex]. *)
Lemma validateIndex_accepts_partial_adapter :
  getd (index_with checked_methods) "addPoint" = JUndef /\
  getd (index_with checked_methods) "initIndex" = JUndef /\
  getd (index_with checked_methods) "getMaxElements" = JUndef /\
  validateIndex (index_with checked_methods) = Ok tt.
Proof. repeat split; reflexivity. Qed.

(** C2 (as the code does it): [validateIndex] fails with "Index parameter
    is required" on a falsy index, and with "missing required methods"
    exactly when one of [getNumDimensions], [getCurrentCount],
    [getUsedLabels], [getPoint] is not a function; no other property is
    examined. *)
Theorem validateIndex_checks_four_methods : forall index,
  (validateIndex index = Ok tt <->
     truthy index = true /\
     (forall k, In k checked_methods -> is_function (getd index k) = true)) /\
  (truthy index = false -> validateIndex index = Err IndexRequired) /\
  (truthy index = true ->
   (exists k, In k checked_methods /\ is_function (getd index k) = false) ->
   validateIndex index = Err MissingRequiredMethods) /\
  (forall k v ps, ~ In k checked_methods ->
   validateIndex (JObj ((k, v) :: ps)) = validateIndex (JObj ps)).
Proof.
  intros index.
  assert (Hv : validateIndex index =
            if truthy index
            then if forallb (fun k => is_function (getd index k)) checked_methods
                 then Ok tt else Err MissingRequiredMethods
            else Err IndexRequired).
  { unfold validateIndex, checked_methods. simpl.
    destruct (truthy index); [|reflexivity]. simpl.
    destruct (is_function (getd index "getNumDimensions")),
             (is_function (getd index "getCurrentCount")),
             (is_function (getd index "getUsedLabels")),
             (is_function (getd index "getPoint")); reflexivity. }
  split; [|split; [|split]].
  - rewrite Hv. destruct (truthy index).
    + destruct (forallb _ _) eqn:Hf.
      * rewrite forallb_forall in Hf. tauto.
      * split; [discriminate|]. intros [_ Hall].
        assert (forallb (fun k => is_function (getd index k)) checked_methods = true)
          by (apply forallb_forall; exact Hall). congruence.
    + split; [discriminate|]. intros [H _]; discriminate.
  - intros Ht. rewrite Hv, Ht. reflexivity.
  - intros Ht [k [Hin Hf]]. rewrite Hv, Ht.
    destruct (forallb _ _) eqn:Hall; [|reflexivity].
    rewrite forallb_forall in Hall. rewrite (Hall k Hin) in Hf. discriminate.
  - intros k v ps Hnin. unfold validateIndex. simpl truthy. cbv iota beta.
    unfold checked_methods in Hnin. simpl in Hnin.
    rewrite !getd_obj_other by (intros Heq; subst k; tauto). reflexivity.
Qed.

(** C4 (counterexample): a text document whose [m] is 0 is loaded with
    [m = 16]. *)
Lemma loadIndexJSON_zero_m_defaulted :
  let doc := json_doc (JStr "l2") (num_Z 3) (num_Z 10) (num_Z 0) (num_Z 200)
               (num_Z 100) (num_Z 1) [vec_obj (num_Z 7) [num_Z 1; num_Z 2; num_Z 3]] in
  getd doc "m" = num_Z 0 /\
  exists md h, loadIndexJSON accept_all doc [] = (Ok md, h) /\ meta_m md = num_Z 16.
Proof.
  split; [reflexivity|]. do 2 eexists. split; [reflexivity|reflexivity].
Qed.

(** C4 (as the code does it): when the text loader succeeds, each of
    [maxElements], [m], [efConstruction], [randomSeed] of the returned
    metadata is the document's value when that value is truthy, and the
    default 100, 16, 200, 100 otherwise (absent, or 0, null, false, ""). *)
Theorem loadIndexJSON_truthy_or_default : forall eng data h md h',
  loadIndexJSON eng data h = (Ok md, h') ->
  meta_maxElements md = js_or (getd data "maxElements") (num_Z 100) /\
  meta_m md = js_or (getd data "m") (num_Z 16) /\
  meta_efConstruction md = js_or (getd data "efConstruction") (num_Z 200) /\
  meta_randomSeed md = js_or (getd data "randomSeed") (num_Z 100) /\
  (forall k d, truthy (getd data k) = true -> js_or (getd data k) d = getd data k) /\
  (forall k d, truthy (getd data k) = false -> js_or (getd data k) d = d).
Proof.
  intros eng data h md h' H.
  destruct (loadIndexJSON_ok_shape eng data h md h' H) as [vs [_ ->]].
  simpl. repeat split; intros k d Ht; unfold js_or; rewrite Ht; reflexivity.
Qed.

Lemma loadIndexJSON_truthy_or_default_witness :
  let doc := json_doc (JStr "l2") (num_Z 3) (num_Z 10) (num_Z 0) (num_Z 200)
               (num_Z 100) (num_Z 1) [vec_obj (num_Z 7) [num_Z 1; num_Z 2; num_Z 3]] in
  exists md h', loadIndexJSON accept_all doc [] = (Ok md, h') /\ meta_m md = num_Z 16.
Proof.
  intros doc. do 2 eexists. split; [reflexivity|].
  rewrite (proj1 (proj2 (loadIndexJSON_truthy_or_default accept_all doc [] _ _ eq_refl))).
  reflexivity.
Defined.

(** C3 (amended). The text loader never reads [numVectors]: on success it
    has inserted exactly the records of the [vectors] array, whatever the
    declared count, and a document's [numVectors] entry does not change the
    outcome. The binary loader inserts exactly the count of its header. *)
Theorem decoded_count_follows_array_or_header : forall eng,
  (forall B h md h', loadIndexBinary eng B h = (Ok md, h') ->
     inserted h' = (inserted h + Z.to_nat (hdr_u32 B 22))%nat) /\
  (forall data h md h', loadIndexJSON eng data h = (Ok md, h') ->
     exists vs, get data "vectors" = Ok (JArr vs) /\
                inserted h' = (inserted h + length vs)%nat) /\
  (forall ps x h,
     loadIndexJSON eng (JObj (("numVectors", x) :: ps)) h = loadIndexJSON eng (JObj ps) h).
Proof.
  intros eng. split; [|split].
  - apply loadIndexBinary_ok_inserted.
  - apply loadIndexJSON_ok_inserted.
  - intros ps x h. reflexivity.
Qed.


(** C3 counterexample: a text document declaring five vectors but holding
    one is accepted, and a single vector is inserted. *)
Lemma loadIndexJSON_accepts_count_mismatch :
  getd ex_doc_count "numVectors" = num_Z 5 /\
  exists md h', loadIndexJSON accept_all ex_doc_count [] = (Ok md, h') /\
                inserted h' = 1%nat.
Proof. split; [reflexivity|]. do 2 eexists. split; reflexivity. Qed.

Lemma decoded_count_follows_array_or_header_witness :
  (exists md h', loadIndexBinary accept_all ex_bin [] = (Ok md, h') /\
                 inserted h' = 3%nat) /\
  (exists md h', loadIndexJSON accept_all ex_doc_count [] = (Ok md, h') /\
                 inserted h' = 1%nat).
Proof.
  split.
  - destruct (loadIndexBinary accept_all ex_bin []) as [r h'] eqn:E.
    destruct r as [md|e]; [|vm_compute in E; discriminate E].
    exists md, h'. split; [reflexivity|].
    rewrite (proj1 (decoded_count_follows_array_or_header accept_all) ex_bin [] md h' E).
    vm_compute. reflexivity.
  - destruct (loadIndexJSON accept_all ex_doc_count []) as [r h'] eqn:E.
    destruct r as [md|e]; [|vm_compute in E; discriminate E].
    exists md, h'. split; [reflexivity|].
    destruct (proj1 (proj2 (decoded_count_follows_array_or_header accept_all))
                ex_doc_count [] md h' E) as [vs [Hv Hi]].
    rewrite Hi. vm_compute in Hv. injection Hv as <-. reflexivity.
Defined.

(** C5 (amended). The top-level checks of the text loader (the [vectors]
    array, [numDimensions], [spaceName]) run before the index is created: when
    they fail, the engine is never called. The records, however, are checked
    one at a time while they are inserted: with a total engine, a document
    whose first invalid record follows the valid records [good] fails after
    the index has been created and initialised and [good] inserted. *)
Theorem loadIndexJSON_validates_records_during_insertion : forall eng data h,
  (json_toplevel_ok data = false ->
     exists e, loadIndexJSON eng data h = (Err e, h) /\ is_recreate e = false) /\
  (forall good bad rest,
     engine_total eng ->
     json_toplevel_ok data = true ->
     get data "vectors" = Ok (JArr (good ++ bad :: rest)) ->
     Forall (fun v => json_record_ok (getd data "numDimensions") v = true) good ->
     json_record_ok (getd data "numDimensions") bad = false ->
     exists e, loadIndexJSON eng data h =
       (Err (RecreateFailed e), h ++ json_setup_calls data ++ map json_record_call good)).
Proof.
  intros eng data h. split.
  - apply loadIndexJSON_toplevel_fail.
  - intros good bad rest. apply loadIndexJSON_fails_after_prefix_aux.
Qed.

(** C5 counterexample: a document whose second record has a string label
    fails only after the index has been created, initialised and given the
    first record. *)
Lemma loadIndexJSON_invalid_record_after_mutation :
  loadIndexJSON accept_all ex_doc_badlabel [] =
  (Err (RecreateFailed (InvalidLabel (JStr "a"))),
   json_setup_calls ex_doc_badlabel ++
   [CAdd (JArr [num_Z 1; num_Z 2; num_Z 3]) (num_Z 7) false]).
Proof. reflexivity. Qed.

Lemma loadIndexJSON_validates_records_during_insertion_witness :
  (exists e, loadIndexJSON accept_all (JObj []) [] = (Err e, []) /\
             is_recreate e = false) /\
  (exists e, loadIndexJSON accept_all ex_doc_badlabel [] =
     (Err (RecreateFailed e),
      [] ++ json_setup_calls ex_doc_badlabel ++
      map json_record_call [vec_obj (num_Z 7) [num_Z 1; num_Z 2; num_Z 3]])).
Proof.
  split.
  - apply (proj1 (loadIndexJSON_validates_records_during_insertion
                    accept_all (JObj []) [])).
    reflexivity.
  - apply (proj2 (loadIndexJSON_validates_records_during_insertion
                    accept_all ex_doc_badlabel [])
             [vec_obj (num_Z 7) [num_Z 1; num_Z 2; num_Z 3]]
             (vec_obj (JStr "a") [num_Z 4; num_Z 5; num_Z 6]) []).
    + intros h0 c0. reflexivity.
    + reflexivity.
    + reflexivity.
    + repeat constructor.
    + reflexivity.
Defined.

(** C8. A buffer of at least 40 bytes with version 1 and in-range
    [numDimensions] and [numVectors], shorter than the size its header
    announces, is rejected with the size-mismatch error: only the header has
    been read (no [RangeError]) and the engine has not been called. *)
Theorem loadIndexBinary_size_mismatch_before_records : forall eng B h,
  40 <= blen B ->
  hdr_u8 B 0 = 1 ->
  0 < hdr_u32 B 2 <= 100000 ->
  0 <= hdr_u32 B 22 <= 100000000 ->
  blen B < expected_size B ->
  loadIndexBinary eng B h = (Err (SizeMismatch (expected_size B) (blen B)), h).
Proof.
  intros eng B h Hs Hv Hd Hn Hlt. unfold expected_size in *.
  rewrite loadIndexBinary_unfold by exact Hs. cbv zeta.
  rewrite Hv. zbool. reflexivity.
Qed.

Lemma loadIndexBinary_size_mismatch_before_records_witness :
  loadIndexBinary accept_all ex_bin_truncated [] =
  (Err (SizeMismatch (expected_size ex_bin_truncated) (blen ex_bin_truncated)), []).
Proof.
  apply loadIndexBinary_size_mismatch_before_records.
  - apply Z.leb_le. vm_compute. reflexivity.
  - vm_compute. reflexivity.
  - split; [apply Z.ltb_lt | apply Z.leb_le]; vm_compute; reflexivity.
  - split; apply Z.leb_le; vm_compute; reflexivity.
  - apply Z.ltb_lt. vm_compute. reflexivity.
Defined.

(** C6. A binary file that passes the length, version, dimension, count and
    size checks but carries a space code outside 0..2 is accepted (with an
    engine that accepts every call), and its space is ["l2"]. *)
Theorem loadIndexBinary_unknown_space_code_is_l2 : forall eng B h,
  engine_total eng ->
  40 <= blen B ->
  hdr_u8 B 0 = 1 ->
  (hdr_u8 B 1 < 0 \/ 2 < hdr_u8 B 1) ->
  0 < hdr_u32 B 2 <= 100000 ->
  0 <= hdr_u32 B 22 <= 100000000 ->
  expected_size B <= blen B ->
  exists md h', loadIndexBinary eng B h = (Ok md, h') /\ meta_spaceName md = JStr "l2".
Proof.
  intros eng B h Heng Hs Hv Hc Hd Hn Hle. unfold expected_size in *.
  rewrite loadIndexBinary_unfold by exact Hs. cbv zeta.
  rewrite Hv. zbool. cbv [try_recreate mbind hnsw ret]. rewrite !Heng.
  destruct (read_vectors_total eng B (hdr_u32 B 2) 0 (Z.to_nat (hdr_u32 B 22)) 40
              ((h ++ [CNew (JStr (space_name (hdr_u8 B 1))) (num_Z (hdr_u32 B 2))]) ++
               [CInit (num_Z (hdr_u32 B 6)) (num_Z (hdr_u32 B 10))
                      (num_Z (hdr_u32 B 14)) (num_Z (hdr_u32 B 18))]))
    as [h' E]; [exact Heng|lia|lia|rewrite Z2Nat.id by lia; lia|].
  rewrite E. do 2 eexists. split; [reflexivity|]. cbn [meta_spaceName].
  unfold space_name. zbool. reflexivity.
Qed.

Lemma loadIndexBinary_unknown_space_code_is_l2_witness :
  exists md h', loadIndexBinary accept_all ex_bin_code7 [] = (Ok md, h') /\
                meta_spaceName md = JStr "l2".
Proof.
  apply loadIndexBinary_unknown_space_code_is_l2.
  - intros h0 c0. reflexivity.
  - apply Z.leb_le. vm_compute. reflexivity.
  - vm_compute. reflexivity.
  - right. apply Z.ltb_lt. vm_compute. reflexivity.
  - split; [apply Z.ltb_lt | apply Z.leb_le]; vm_compute; reflexivity.
  - split; apply Z.leb_le; vm_compute; reflexivity.
  - apply Z.leb_le. vm_compute. reflexivity.
Defined.

(** C9. Appending bytes to a buffer of at least 40 bytes whose length is
    exactly the size its header announces does not change the result of the
    binary loader (value, error and engine calls alike): trailing bytes are
    ignored. *)
Theorem loadIndexBinary_ignores_trailing_bytes : forall eng pre extra h,
  40 <= blen pre ->
  expected_size pre = blen pre ->
  loadIndexBinary eng (pre ++ extra) h = loadIndexBinary eng pre h.
Proof.
  intros eng pre extra h Hs He.
  assert (Hl : (40 <= length pre)%nat) by (unfold blen in Hs; lia).
  unfold expected_size, hdr_u32 in He.
  rewrite !loadIndexBinary_unfold by (rewrite ?blen_app; unfold blen in *; lia).
  cbv zeta. unfold hdr_u8, hdr_u32.
  rewrite !firstn_skipn_app by (cbn [Z.to_nat Pos.to_nat]; simpl; lia).
  destruct (negb _); [reflexivity|].
  set (d := le_value (firstn 4 (skipn (Z.to_nat 2) pre))) in *.
  set (n := le_value (firstn 4 (skipn (Z.to_nat 22) pre))) in *.
  destruct ((d <=? 0) || (100000 <? d)) eqn:Ed; [reflexivity|].
  destruct ((n <? 0) || (100000000 <? n)) eqn:En; [reflexivity|].
  apply orb_false_iff in Ed as [Ed _]. apply orb_false_iff in En as [En _].
  apply Z.leb_gt in Ed. apply Z.ltb_ge in En.
  assert (0 <= blen extra) by (unfold blen; lia).
  rewrite blen_app. zbool.
  cbv [try_recreate mbind hnsw ret].
  destruct (eng h _); [reflexivity|].
  destruct (eng (h ++ _) _); [reflexivity|].
  rewrite read_vectors_app by (rewrite ?Z2Nat.id by lia; lia).
  reflexivity.
Qed.

Lemma loadIndexBinary_ignores_trailing_bytes_witness :
  loadIndexBinary accept_all (ex_bin ++ [1; 2; 3]) [] =
  loadIndexBinary accept_all ex_bin [].
Proof.
  apply loadIndexBinary_ignores_trailing_bytes.
  - apply Z.leb_le. vm_compute. reflexivity.
  - vm_compute. reflexivity.
Defined.

(** C7. Whenever the binary encoder succeeds on [numVectors] records of
    dimension [numDimensions], the bytes it writes out number exactly
    [40 + numVectors * (4 + 4 * numDimensions)]. *)
Theorem saveIndexBinary_output_length : forall garbage getMaxElements metadata
  numDimensions vectors out,
  saveIndexBinary garbage getMaxElements metadata numDimensions vectors = Ok out ->
  Z.of_nat (length out) = 40 + Z.of_nat (length vectors) * (4 + 4 * numDimensions).
Proof.
  intros garbage gm md d vectors out H. unfold saveIndexBinary in H.
  destruct (get md "spaceName") as [sp|]; cbn [rbind] in H; [|discriminate].
  cbv zeta in H.
  destruct (saveIndexBinary_body _ _ _ _ _ _ _) as [b|] eqn:E; [|discriminate].
  inversion H; subst. apply saveIndexBinary_body_len in E. lia.
Qed.

Lemma saveIndexBinary_output_length_witness :
  exists out, saveIndexBinary [] (Err TypeError) ex_metadata 3 ex_records = Ok out /\
              Z.of_nat (length out) = 88.
Proof.
  destruct (saveIndexBinary [] (Err TypeError) ex_metadata 3 ex_records) as [out|e]
    eqn:E; [|vm_compute in E; discriminate E].
  exists out. split; [reflexivity|].
  rewrite (saveIndexBinary_output_length [] (Err TypeError) ex_metadata 3 ex_records
             out E).
  reflexivity.
Defined.

(** C1 (amended). Round trip of both codecs, with an engine that accepts
    every call: for metadata whose [spaceName] is one of l2, ip, cosine and
    whose [maxElements], [m], [efConstruction] and [randomSeed] are non-zero
    unsigned 32-bit integers, a dimension in [1, 100000], at most 10^8
    records, each with an unsigned 32-bit integer label and a point of
    [numDimensions] finite numbers, decoding the encoding returns the same
    metadata and inserts the same (label, point) pairs in order: exactly for
    the text codec, with each coordinate rounded to binary32 for the binary
    codec. *)
Theorem codec_roundtrip_nonzero_metadata : forall garbage gm md sp d me m ef seed vectors h,
  get md "spaceName" = Ok (JStr sp) -> valid_space (JStr sp) = true ->
  get md "maxElements" = Ok (num_Z me) -> get md "m" = Ok (num_Z m) ->
  get md "efConstruction" = Ok (num_Z ef) -> get md "randomSeed" = Ok (num_Z seed) ->
  0 < me <= 2 ^ 32 - 1 -> 0 < m <= 2 ^ 32 - 1 ->
  0 < ef <= 2 ^ 32 - 1 -> 0 < seed <= 2 ^ 32 - 1 ->
  1 <= d <= 100000 -> Z.of_nat (length vectors) <= 100000000 ->
  Forall (valid_record d) vectors ->
  (exists doc, saveIndexJSON gm md d vectors = Ok doc /\
     loadIndexJSON accept_all (json_rt doc) h =
     (Ok (rt_meta sp d me m ef seed), h ++ rt_setup sp d me m ef seed ++ json_adds vectors)) /\
  (exists out, saveIndexBinary garbage gm md d vectors = Ok out /\
     loadIndexBinary accept_all out h =
     (Ok (rt_meta sp d me m ef seed), h ++ rt_setup sp d me m ef seed ++ bin_adds vectors)).
Proof.
  intros garbage gm md sp d me m ef seed vectors h Hsp Hv Hme Hm Hef Hseed
    Hme' Hm' Hef' Hseed' Hd Hn Hrec.
  split.
  - apply json_roundtrip; (assumption || lia).
  - apply binary_roundtrip; try (assumption || lia);
      unfold getd; [rewrite Hme | rewrite Hm | rewrite Hef | rewrite Hseed]; reflexivity.
Qed.

(** C1 counterexample: a random seed of 0 is a valid unsigned 32-bit value,
    yet both codecs give back 100 (the [|| 100] default of the encoders and
    of the text decoder). *)
Lemma codec_roundtrip_zero_seed_changed :
  getd ex_metadata_seed0 "randomSeed" = num_Z 0 /\
  fst (match saveIndexJSON (Err TypeError) ex_metadata_seed0 3 ex_records with
       | Ok doc => loadIndexJSON accept_all (json_rt doc) []
       | Err e => (Err e, []) end) = Ok (rt_meta "l2" 3 10 16 200 100) /\
  fst (match saveIndexBinary [] (Err TypeError) ex_metadata_seed0 3 ex_records with
       | Ok b => loadIndexBinary accept_all b []
       | Err e => (Err e, []) end) = Ok (rt_meta "l2" 3 10 16 200 100).
Proof. split; [reflexivity|split; vm_compute; reflexivity]. Qed.

Lemma codec_roundtrip_nonzero_metadata_witness :
  (exists doc, saveIndexJSON (Err TypeError) ex_metadata 3 ex_records = Ok doc /\
     loadIndexJSON accept_all (json_rt doc) [] =
     (Ok (rt_meta "l2" 3 10 16 200 100),
      [] ++ rt_setup "l2" 3 10 16 200 100 ++ json_adds ex_records)) /\
  (exists out, saveIndexBinary [] (Err TypeError) ex_metadata 3 ex_records = Ok out /\
     loadIndexBinary accept_all out [] =
     (Ok (rt_meta "l2" 3 10 16 200 100),
      [] ++ rt_setup "l2" 3 10 16 200 100 ++ bin_adds ex_records)).
Proof.
  apply (codec_roundtrip_nonzero_metadata [] (Err TypeError) ex_metadata "l2" 3 10 16 200 100
           ex_records []); try reflexivity; try lia.
  - cbn; lia.
  - unfold ex_records; repeat apply Forall_cons; try apply Forall_nil;
    (split; [eexists; split; [reflexivity|lia] | split; reflexivity]).
Defined.


(* ------------------------------------------------------------------ *)
(** ** Further properties of the entry points and codecs *)

Lemma trim_start_cases : forall s,
  (trim_start s = EmptyString /\ forallb js_ws (list_ascii_of_string s) = true) \/
  (exists c s', trim_start s = String c s' /\ js_ws c = false /\
                forallb js_ws (list_ascii_of_string s) = false).
Proof.
  induction s as [|c s IH]; simpl; [left; auto|].
  destruct (js_ws c) eqn:E; simpl; [exact IH|].
  right. exists c, s. auto.
Qed.

(** [validateFilename] accepts exactly the strings with a character other
    than JavaScript whitespace; a value that is not a non-empty string is
    rejected with "Filename must be a non-empty string", a non-empty string
    of whitespace with "Filename cannot be empty". *)
Theorem validateFilename_accepts_nonblank_strings : forall filename,
  validateFilename filename =
  match filename with
  | JStr s =>
      if String.eqb s EmptyString then Err FilenameNotString
      else if forallb js_ws (list_ascii_of_string s) then Err FilenameEmpty
      else Ok tt
  | _ => Err FilenameNotString
  end.
Proof.
  intros [| | b | n | s | xs | ps | f]; unfold validateFilename; simpl; try reflexivity.
  - destruct b; reflexivity.
  - destruct n as [q| | |]; simpl; try reflexivity. destruct (Qeq_bool q 0); reflexivity.
  - destruct (String.eqb s EmptyString) eqn:E; simpl; [reflexivity|].
    unfold trim. destruct (trim_start_cases s) as [[-> ->]|[c [s' [-> [Hc ->]]]]];
      [reflexivity|].
    simpl. rewrite Hc. reflexivity.
Qed.

Lemma validateIndex_ok_methods : forall v, validateIndex v = Ok tt ->
  forall k, In k checked_methods -> is_function (getd v k) = true.
Proof.
  intros v H k Hk. unfold validateIndex in H.
  destruct (truthy v); [|discriminate].
  destruct (is_function (getd v "getNumDimensions")) eqn:E1;
  destruct (is_function (getd v "getCurrentCount")) eqn:E2;
  destruct (is_function (getd v "getUsedLabels")) eqn:E3;
  destruct (is_function (getd v "getPoint")) eqn:E4; try discriminate.
  simpl in Hk. destruct Hk as [<-|[<-|[<-|[<-|[]]]]]; assumption.
Qed.

Lemma call_method_checked : forall {A} ix k (r : result A),
  validateIndex (ix_val ix) = Ok tt -> In k checked_methods -> call_method ix k r = r.
Proof.
  intros A ix k r H Hk. unfold call_method.
  rewrite (validateIndex_ok_methods _ H k Hk). reflexivity.
Qed.

(** [saveIndexToFile] checks, in this order and before any file is written:
    the index ([validateIndex]), the filename ([validateFilename]), and that
    [getCurrentCount()] is not 0.  An index whose count is 0 is rejected with
    "Cannot save empty index" whatever its labels. *)
Theorem saveIndexToFile_checks_before_writing : forall garbage fs_write ix filename md,
  (forall e, validateIndex (ix_val ix) = Err e ->
     saveIndexToFile garbage fs_write ix filename md = Err e) /\
  (forall e, validateIndex (ix_val ix) = Ok tt -> validateFilename filename = Err e ->
     saveIndexToFile garbage fs_write ix filename md = Err e) /\
  (forall nd c, validateIndex (ix_val ix) = Ok tt -> validateFilename filename = Ok tt ->
     ix_getNumDimensions ix = Ok nd -> ix_getCurrentCount ix = Ok c -> is_zero c = true ->
     saveIndexToFile garbage fs_write ix filename md = Err EmptyIndex).
Proof.
  intros garbage fs_write ix filename md. unfold saveIndexToFile.
  split; [|split].
  - intros e H. rewrite H. reflexivity.
  - intros e H1 H2. rewrite H1, H2. reflexivity.
  - intros nd c H1 H2 H3 H4 H5. rewrite H1, H2. cbn [rbind].
    rewrite !call_method_checked by (assumption || (simpl; tauto)).
    rewrite H3, H4. cbn [rbind]. rewrite H5. reflexivity.
Qed.

Lemma saveIndexToFile_checks_before_writing_witness :
  validateIndex (ix_val ex_index) = Ok tt /\ validateFilename (JStr "x.json") = Ok tt /\
  saveIndexToFile [] (fun _ => None)
    {| ix_val := ix_val ex_index; ix_getNumDimensions := Ok 3%N;
       ix_getCurrentCount := Ok (num_Z 0); ix_getUsedLabels := ix_getUsedLabels ex_index;
       ix_getPoint := ix_getPoint ex_index; ix_getMaxElements := Err TypeError |}
    (JStr "x.json") ex_metadata = Err EmptyIndex.
Proof.
  split; [reflexivity|split; [reflexivity|]].
  apply (proj2 (proj2 (saveIndexToFile_checks_before_writing [] (fun _ => None)
    {| ix_val := ix_val ex_index; ix_getNumDimensions := Ok 3%N;
       ix_getCurrentCount := Ok (num_Z 0); ix_getUsedLabels := ix_getUsedLabels ex_index;
       ix_getPoint := ix_getPoint ex_index; ix_getMaxElements := Err TypeError |}
    (JStr "x.json") ex_metadata)) 3%N (num_Z 0)); reflexivity.
Defined.

Lemma extract_points_ok : forall ix labels vectors,
  extract_points ix labels = Ok vectors ->
  map fst vectors = labels /\
  Forall (fun r => exists p, call_method ix "getPoint" (ix_getPoint ix (fst r)) = Ok p /\
                     (match p with JArr xs => Ok xs | _ => array_from p end) = Ok (snd r))
         vectors.
Proof.
  intros ix. induction labels as [|l labels IH]; intros vectors H; simpl in H.
  - inversion H; subst. split; [reflexivity|constructor].
  - destruct (call_method ix "getPoint" (ix_getPoint ix l)) as [p|e] eqn:Ep;
      cbn [rbind] in H; [|discriminate].
    destruct (match p with JArr xs => Ok xs | _ => array_from p end) as [xs|e] eqn:Ex;
      cbn [rbind] in H; [|discriminate].
    destruct (extract_points ix labels) as [vs|e] eqn:Evs; cbn [rbind] in H; [|discriminate].
    inversion H; subst. destruct (IH vs eq_refl) as [H1 H2].
    split; [simpl; rewrite H1; reflexivity|].
    constructor; [|exact H2]. exists p. simpl. auto.
Qed.

Lemma extract_points_arrays : forall ix labels pts,
  is_function (getd (ix_val ix) "getPoint") = true ->
  (forall l, In l labels -> ix_getPoint ix l = Ok (JArr (pts l))) ->
  extract_points ix labels = Ok (map (fun l => (l, pts l)) labels).
Proof.
  intros ix labels pts Hf. induction labels as [|l labels IH]; intros Hp; [reflexivity|].
  simpl. unfold call_method at 1. rewrite Hf, (Hp l (or_introl eq_refl)). cbn [rbind].
  rewrite IH by (intros l' Hl'; apply Hp; right; exact Hl'). reflexivity.
Qed.

(** [extractVectorsFromIndex] reports every failure as "Failed to extract
    vectors from index"; on success its records follow the labels that
    [getUsedLabels()] iterates over, in order, each with the point
    [getPoint(label)] returned (converted by [Array.from] when it is not an
    array); when the labels form an array and every point is an array, the
    records are exactly these (label, point) pairs. *)
Theorem extractVectorsFromIndex_follows_used_labels : forall ix,
  (forall e, extractVectorsFromIndex ix = Err e -> exists e', e = ExtractFailed e') /\
  (forall vectors, extractVectorsFromIndex ix = Ok vectors ->
     (exists ul, call_method ix "getUsedLabels" (ix_getUsedLabels ix) = Ok ul /\
                 iterate ul = Ok (map fst vectors)) /\
     Forall (fun r => exists p, call_method ix "getPoint" (ix_getPoint ix (fst r)) = Ok p /\
                        (match p with JArr xs => Ok xs | _ => array_from p end) = Ok (snd r))
            vectors) /\
  (forall labels pts,
     is_function (getd (ix_val ix) "getUsedLabels") = true ->
     is_function (getd (ix_val ix) "getPoint") = true ->
     ix_getUsedLabels ix = Ok (JArr labels) ->
     (forall l, In l labels -> ix_getPoint ix l = Ok (JArr (pts l))) ->
     extractVectorsFromIndex ix = Ok (map (fun l => (l, pts l)) labels)).
Proof.
  intros ix. unfold extractVectorsFromIndex. split; [|split].
  - intros e H.
    destruct (let! usedLabels := call_method ix "getUsedLabels" (ix_getUsedLabels ix) in
              let! labels := iterate usedLabels in extract_points ix labels);
      inversion H; eauto.
  - intros vectors H.
    destruct (call_method ix "getUsedLabels" (ix_getUsedLabels ix)) as [ul|e] eqn:Eul;
      cbn [rbind] in H; [|discriminate].
    destruct (iterate ul) as [labels|e] eqn:Eit; cbn [rbind] in H; [|discriminate].
    destruct (extract_points ix labels) as [vs|e] eqn:Evs; inversion H; subst.
    destruct (extract_points_ok _ _ _ Evs) as [H1 H2].
    split; [|exact H2]. exists ul. rewrite H1. auto.
  - intros labels pts Hu Hp Hl Hpts.
    unfold call_method at 1. rewrite Hu, Hl. cbn [rbind iterate].
    rewrite (extract_points_arrays ix labels pts Hp Hpts). reflexivity.
Qed.

Lemma extractVectorsFromIndex_follows_used_labels_witness :
  extractVectorsFromIndex ex_index = Ok ex_records.
Proof.
  apply (proj2 (proj2 (extractVectorsFromIndex_follows_used_labels ex_index))
           (map fst ex_records)
           (fun l => nth (Z.to_nat (to_uint32 (to_number l))) (map snd ex_records) []));
    try reflexivity;
    intros l Hl; simpl in Hl; destruct Hl as [<-|[<-|[<-|[]]]]; reflexivity.
Defined.

Lemma default_param_get : forall v k x d, get v k = Ok x -> default_param v d = v.
Proof. intros [] k x d H; try discriminate; reflexivity. Qed.

Ltac valid_records :=
  repeat apply Forall_cons; try apply Forall_nil;
  (split; [eexists; split; [reflexivity|lia] | split; reflexivity]).



(** Saving an index under any other name and loading that file back (the
    file system returning bytes that [JSON.parse] reads as the JSON form of
    the object written) gives the metadata saved and inserts the index's
    (label, point) pairs unchanged, in the order of [getUsedLabels()]: for
    non-zero numeric [maxElements], [m], [efConstruction], [randomSeed], a
    valid [spaceName], a dimension of at least 1, unsigned 32-bit labels and
    finite coordinates, an engine accepting every call. *)
Theorem saveIndexToFile_loadIndexFromFile_json :
  forall garbage fs_write ix name md sp dn me m ef seed c vectors json_parse hnswlib h,
  validateIndex (ix_val ix) = Ok tt ->
  validateFilename (JStr name) = Ok tt -> is_binary name = false ->
  (forall w, fs_write w = None) ->
  ix_getNumDimensions ix = Ok dn -> ix_getCurrentCount ix = Ok c -> is_zero c = false ->
  extractVectorsFromIndex ix = Ok vectors ->
  get md "spaceName" = Ok (JStr sp) -> valid_space (JStr sp) = true ->
  get md "maxElements" = Ok (num_Z me) -> get md "m" = Ok (num_Z m) ->
  get md "efConstruction" = Ok (num_Z ef) -> get md "randomSeed" = Ok (num_Z seed) ->
  me <> 0 -> m <> 0 -> ef <> 0 -> seed <> 0 -> 1 <= Z.of_N dn ->
  Forall (valid_record (Z.of_N dn)) vectors ->
  truthy hnswlib = true -> is_function (getd hnswlib "HierarchicalNSW") = true ->
  exists doc, saveIndexToFile garbage fs_write ix (JStr name) md = Ok (WText doc) /\
    forall fs content, fs_access fs name = true -> fs_read fs name = Ok content ->
      json_parse content = Some (json_rt doc) ->
      loadIndexFromFile accept_all json_parse fs hnswlib (JStr name) h =
      (Ok (rt_meta sp (Z.of_N dn) me m ef seed),
       h ++ rt_setup sp (Z.of_N dn) me m ef seed ++ json_adds vectors).
Proof.
  intros garbage fs_write ix name md sp dn me m ef seed c vectors json_parse hnswlib h
    Hix Hfn Hbin Hw Hnd Hc Hz Hext Hsp Hv Hme Hm Hef Hseed
    Hme' Hm' Hef' Hseed' Hd Hrec Ht Hhf.
  destruct (json_roundtrip (call_method ix "getMaxElements" (ix_getMaxElements ix))
              md sp (Z.of_N dn) me m ef seed vectors h) as [doc [Hs Hl]];
    try assumption.
  exists doc. split.
  - unfold saveIndexToFile. cbv zeta.
    rewrite (default_param_get md "spaceName" _ _ Hsp), Hix, Hfn. cbn [rbind].
    rewrite !call_method_checked by (assumption || (simpl; tauto)).
    rewrite Hnd, Hc. cbn [rbind]. rewrite Hz, Hext. cbn [rbind filename_str].
    rewrite Hbin, Hs. cbn [rbind]. rewrite Hw. reflexivity.
  - intros fs content Ha Hr Hp. unfold loadIndexFromFile, mbind, lift. rewrite Hfn.
    rewrite Ht, Hhf. cbn [negb orb filename_str]. rewrite Ha, Hbin. cbn [negb].
    unfold loadIndexJSON_file. rewrite Hr, Hp. exact Hl.
Qed.

Lemma saveIndexToFile_loadIndexFromFile_json_witness :
  exists doc, saveIndexToFile [] (fun _ => None) ex_index (JStr "x.json") ex_metadata
                = Ok (WText doc) /\
    forall fs content, fs_access fs "x.json" = true -> fs_read fs "x.json" = Ok content ->
      ex_parse content = Some (json_rt doc) ->
      loadIndexFromFile accept_all ex_parse fs ex_hnswlib (JStr "x.json") [] =
      (Ok (rt_meta "l2" (Z.of_N 3) 10 16 200 100),
       [] ++ rt_setup "l2" (Z.of_N 3) 10 16 200 100 ++ json_adds ex_records).
Proof.
  apply (saveIndexToFile_loadIndexFromFile_json [] (fun _ => None) ex_index "x.json"
           ex_metadata "l2" 3 10 16 200 100 (num_Z 3) ex_records ex_parse ex_hnswlib []);
    try reflexivity; try lia; valid_records.
Defined.

(** [loadIndexFromFile] rejects, in this order and without any call on
    hnswlib: an invalid filename (the [validateFilename] error), a module
    without a [HierarchicalNSW] function, a file [fs.access] refuses ("File
    not found"), a file [fs.readFile] cannot read ("Failed to read file"),
    and, for a name not ending in [.bin] or [.dat], content that is not JSON
    ("Invalid JSON file"). *)
Theorem loadIndexFromFile_rejects_before_engine :
  forall eng json_parse fs hnswlib filename h,
  (forall e, validateFilename filename = Err e ->
     loadIndexFromFile eng json_parse fs hnswlib filename h = (Err e, h)) /\
  (validateFilename filename = Ok tt ->
     truthy hnswlib && is_function (getd hnswlib "HierarchicalNSW") = false ->
     loadIndexFromFile eng json_parse fs hnswlib filename h = (Err InvalidHnswlibModule, h)) /\
  (validateFilename filename = Ok tt ->
     truthy hnswlib && is_function (getd hnswlib "HierarchicalNSW") = true ->
     fs_access fs (filename_str filename) = false ->
     loadIndexFromFile eng json_parse fs hnswlib filename h =
     (Err (FileNotFound (filename_str filename)), h)) /\
  (forall e, validateFilename filename = Ok tt ->
     truthy hnswlib && is_function (getd hnswlib "HierarchicalNSW") = true ->
     fs_access fs (filename_str filename) = true ->
     fs_read fs (filename_str filename) = Err e ->
     loadIndexFromFile eng json_parse fs hnswlib filename h = (Err (ReadFailed e), h)) /\
  (forall content, validateFilename filename = Ok tt ->
     truthy hnswlib && is_function (getd hnswlib "HierarchicalNSW") = true ->
     fs_access fs (filename_str filename) = true ->
     is_binary (filename_str filename) = false ->
     fs_read fs (filename_str filename) = Ok content -> json_parse content = None ->
     loadIndexFromFile eng json_parse fs hnswlib filename h = (Err InvalidJSONFile, h)).
Proof.
  intros eng json_parse fs hnswlib filename h.
  unfold loadIndexFromFile, mbind, lift.
  split; [|split; [|split; [|split]]].
  - intros e H. rewrite H. reflexivity.
  - intros H1 H2. rewrite H1. rewrite <- negb_andb, H2. reflexivity.
  - intros H1 H2 H3. rewrite H1. rewrite <- negb_andb, H2, H3. reflexivity.
  - intros e H1 H2 H3 H4. rewrite H1. rewrite <- negb_andb, H2, H3. cbn [negb].
    unfold loadIndexBinary_file, loadIndexJSON_file. rewrite H4.
    destruct (is_binary (filename_str filename)); reflexivity.
  - intros content H1 H2 H3 H4 H5 H6. rewrite H1. rewrite <- negb_andb, H2, H3, H4.
    cbn [negb]. unfold loadIndexJSON_file. rewrite H5, H6. reflexivity.
Qed.

Lemma loadIndexFromFile_rejects_before_engine_witness :
  loadIndexFromFile accept_all (fun _ => None)
    {| fs_access := fun _ => false; fs_read := fun _ => Err (FsError "ENOENT") |}
    ex_hnswlib (JStr "x.json") [] = (Err (FileNotFound "x.json"), []) /\
  loadIndexFromFile accept_all (fun _ => None)
    {| fs_access := fun _ => true; fs_read := fun _ => Ok [123] |}
    ex_hnswlib (JStr "x.json") [] = (Err InvalidJSONFile, []).
Proof.
  split.
  - apply (proj1 (proj2 (proj2 (loadIndexFromFile_rejects_before_engine accept_all
      (fun _ => None)
      {| fs_access := fun _ => false; fs_read := fun _ => Err (FsError "ENOENT") |}
      ex_hnswlib (JStr "x.json") [])))); reflexivity.
  - apply (proj2 (proj2 (proj2 (proj2 (loadIndexFromFile_rejects_before_engine accept_all
      (fun _ => None) {| fs_access := fun _ => true; fs_read := fun _ => Ok [123] |}
      ex_hnswlib (JStr "x.json") [])))) [123]); reflexivity.
Defined.

Lemma read_vectors_engine_errors : forall eng B d i k off h e h',
  0 <= d -> 0 <= off -> off + Z.of_nat k * (4 + d * 4) <= blen B ->
  read_vectors eng B d i k off h = (Err e, h') -> exists msg, e = EngineError msg.
Proof.
  intros eng B d i k. revert i.
  induction k as [|k IH]; intros i off h e h' Hd Hoff Hk H; cbn [read_vectors] in H.
  - discriminate.
  - rewrite Nat2Z.inj_succ in Hk.
    rewrite Z.gtb_ltb, (proj2 (Z.ltb_ge _ _)) in H by nia.
    destruct (read_point_total B i 0 (Z.to_nat d) (off + 4)) as [xs E]; [lia|nia|].
    unfold mbind, lift, hnsw, readUInt32LE in H. rewrite read_bytes_ok in H by nia.
    cbn [rbind] in H. rewrite E in H. cbn [fst snd] in H.
    match type of H with context [eng ?a ?b] => destruct (eng a b) as [msg|] end.
    + cbv iota in H. inversion H; subst. exists msg. reflexivity.
    + refine (IH _ _ _ _ _ Hd _ _ H); [lia|]. rewrite Z2Nat.id by lia. nia.
Qed.

(** The binary loader never fails with "Unexpected end of file" or with a
    buffer range error: once the size check has passed every read is in
    bounds, so its only errors are a file under 40 bytes, an unsupported
    version, an invalid [numDimensions] or [numVectors], a size mismatch,
    and an error of hnswlib reported as "Failed to recreate index". *)
Theorem loadIndexBinary_error_kinds : forall eng B h e h',
  loadIndexBinary eng B h = (Err e, h') ->
  (exists n, e = FileTooSmall n) \/ (exists v, e = UnsupportedVersion v) \/
  (exists d, e = InvalidNumDimensions d) \/ (exists n, e = InvalidNumVectors n) \/
  (exists a b, e = SizeMismatch a b) \/ (exists msg, e = RecreateFailed (EngineError msg)).
Proof.
  intros eng B h e h' H.
  destruct (Z.ltb_spec (blen B) 40) as [Hs|Hs].
  - unfold loadIndexBinary in H. rewrite (proj2 (Z.ltb_lt _ _) Hs) in H.
    inversion H; subst. left. eauto.
  - rewrite loadIndexBinary_unfold in H by lia. cbv zeta in H.
    destruct (negb (hdr_u8 B 0 =? 1)); [inversion H; subst; eauto 10|].
    destruct ((hdr_u32 B 2 <=? 0) || (100000 <? hdr_u32 B 2)) eqn:Ed;
      [inversion H; subst; eauto 10|].
    destruct ((hdr_u32 B 22 <? 0) || (100000000 <? hdr_u32 B 22)) eqn:En;
      [inversion H; subst; eauto 10|].
    destruct (blen B <? 40 + hdr_u32 B 22 * (4 + hdr_u32 B 2 * 4)) eqn:Esz;
      [inversion H; subst; eauto 10|].
    apply orb_false_iff in Ed as [Ed1 Ed2]. apply orb_false_iff in En as [En1 En2].
    apply Z.leb_gt in Ed1. apply Z.ltb_ge in En1. apply Z.ltb_ge in Esz.
    right; right; right; right; right.
    unfold try_recreate, mbind, hnsw in H.
    match type of H with context [eng h ?b] => destruct (eng h b) as [msg|] end;
      [inversion H; subst; eauto|].
    match type of H with context [eng (h ++ ?a) ?b] => destruct (eng (h ++ a) b) as [msg|] end;
      [inversion H; subst; eauto|].
    destruct (read_vectors eng B (hdr_u32 B 2) 0 (Z.to_nat (hdr_u32 B 22)) 40 _)
      as [[u|e'] h2] eqn:Er; [discriminate|].
    inversion H; subst.
    destruct (read_vectors_engine_errors eng B (hdr_u32 B 2) 0 (Z.to_nat (hdr_u32 B 22)) 40
                _ _ _ ltac:(lia) ltac:(lia) ltac:(rewrite Z2Nat.id by lia; nia) Er)
      as [msg ->].
    eauto.
Qed.

Lemma loadIndexBinary_error_kinds_witness :
  (exists a b, SizeMismatch 72 40 = SizeMismatch a b).
Proof.
  destruct (loadIndexBinary_error_kinds accept_all ex_bin_truncated [] (SizeMismatch 72 40) []
              ltac:(vm_compute; reflexivity))
    as [[n Hn]|[[v Hv]|[[d Hd]|[[n Hn]|[Hab|[msg Hm]]]]]]; try discriminate.
  exact Hab.
Defined.

Lemma appends_ret : forall {A} (a : A), appends_only (ret a).
Proof. intros A a h r h' H. inversion H; subst. exists []. rewrite app_nil_r. reflexivity. Qed.

Lemma appends_lift : forall {A} (r : result A), appends_only (lift r).
Proof. intros A r0 h r h' H. inversion H; subst. exists []. rewrite app_nil_r. reflexivity. Qed.

Lemma appends_throw : forall {A} e, appends_only (@throw A e).
Proof. intros. apply appends_lift. Qed.

Lemma appends_hnsw : forall eng c, appends_only (hnsw eng c).
Proof.
  intros eng c h r h' H. unfold hnsw in H.
  destruct (eng h c); inversion H; subst; [exists []; rewrite app_nil_r|exists [c]]; reflexivity.
Qed.

Lemma appends_mbind : forall {A B} (m : M A) (k : A -> M B),
  appends_only m -> (forall a, appends_only (k a)) -> appends_only (mbind m k).
Proof.
  intros A B m k Hm Hk h r h' H. unfold mbind in H.
  destruct (m h) as [[a|e] h1] eqn:E.
  - destruct (Hm _ _ _ E) as [e1 ->]. destruct (Hk a _ _ _ H) as [e2 ->].
    exists (e1 ++ e2). rewrite app_assoc. reflexivity.
  - inversion H; subst. exact (Hm _ _ _ E).
Qed.

Lemma appends_try_recreate : forall {A} (m : M A), appends_only m ->
  forall h r h', try_recreate m h = (r, h') ->
  (exists ext, h' = h ++ ext) /\ (forall e, r = Err e -> is_recreate e = true).
Proof.
  intros A m Hm h r h' H. unfold try_recreate in H.
  destruct (m h) as [[a|e] h1] eqn:E; inversion H; subst;
    (split; [exact (Hm _ _ _ E)|intros e' He'; inversion He'; reflexivity]).
Qed.

Create HintDb logs.

#[local] Hint Resolve appends_ret appends_lift appends_throw appends_hnsw appends_mbind : logs.

Lemma appends_read_vectors : forall eng B d i k off, appends_only (read_vectors eng B d i k off).
Proof.
  intros eng B d i k. revert i. induction k as [|k IH]; intros i off; cbn [read_vectors].
  - auto with logs.
  - destruct (off + 4 >? blen B); auto with logs.
Qed.

Lemma appends_add_json_vectors : forall eng nd vs, appends_only (add_json_vectors eng nd vs).
Proof.
  intros eng nd vs. induction vs as [|v vs IH]; cbn [add_json_vectors]; [auto with logs|].
  apply appends_mbind; [auto with logs|intros l].
  apply appends_mbind; [auto with logs|intros p].
  destruct (negb (is_number l)); [auto with logs|].
  destruct p; auto with logs.
  destruct (negb (length_is xs nd)); auto with logs.
Qed.

#[local] Hint Resolve appends_read_vectors appends_add_json_vectors : logs.

(** Both loaders only append to the log of hnswlib calls, and an error
    raised once a call has been made is always reported as "Failed to
    recreate index": any other error leaves hnswlib untouched. *)
Theorem loaders_only_append_engine_calls : forall eng h,
  (forall B r h', loadIndexBinary eng B h = (r, h') ->
     exists ext, h' = h ++ ext /\ (forall e, r = Err e -> is_recreate e = false -> ext = [])) /\
  (forall data r h', loadIndexJSON eng data h = (r, h') ->
     exists ext, h' = h ++ ext /\ (forall e, r = Err e -> is_recreate e = false -> ext = [])).
Proof.
  intros eng h. split.
  - intros B r h' H.
    destruct (Z.ltb_spec (blen B) 40) as [Hs|Hs].
    + unfold loadIndexBinary in H. rewrite (proj2 (Z.ltb_lt _ _) Hs) in H.
      inversion H; subst. exists []. rewrite app_nil_r. auto.
    + rewrite loadIndexBinary_unfold in H by lia. cbv zeta in H.
      repeat match type of H with
             | (if ?c then _ else _) = _ => destruct c
             end;
        try (inversion H; subst; exists []; rewrite app_nil_r; auto; fail).
      apply appends_try_recreate in H; [|repeat (apply appends_mbind; intros); auto with logs].
      destruct H as [[ext ->] Hr]. exists ext. split; [reflexivity|].
      intros e -> He. rewrite (Hr e eq_refl) in He. discriminate.
  - intros data r h' H. unfold loadIndexJSON, mbind, lift, throw in H.
    destruct (get data "vectors") as [vectors|e];
      [|inversion H; subst; exists []; rewrite app_nil_r; auto].
    destruct vectors;
      try (inversion H; subst; exists []; rewrite app_nil_r; auto; fail).
    destruct (get data "numDimensions") as [nd|e];
      [|inversion H; subst; exists []; rewrite app_nil_r; auto].
    destruct (negb (is_number nd) || num_le0 nd);
      [inversion H; subst; exists []; rewrite app_nil_r; auto|].
    destruct (get data "spaceName") as [sp|e];
      [|inversion H; subst; exists []; rewrite app_nil_r; auto].
    destruct (negb (truthy sp) || negb (valid_space sp));
      [inversion H; subst; exists []; rewrite app_nil_r; auto|].
    apply appends_try_recreate in H;
      [|repeat (apply appends_mbind; intros); auto with logs].
    destruct H as [[ext ->] Hr]. exists ext. split; [reflexivity|].
    intros e -> He. rewrite (Hr e eq_refl) in He. discriminate.
Qed.

Lemma loaders_only_append_engine_calls_witness :
  (exists ext, [] ++ json_setup_calls ex_doc_badlabel ++
                 [CAdd (JArr [num_Z 1; num_Z 2; num_Z 3]) (num_Z 7) false] = [] ++ ext) /\
  (exists ext, @nil call = [] ++ ext).
Proof.
  split.
  - destruct (proj2 (loaders_only_append_engine_calls accept_all []) ex_doc_badlabel
      (Err (RecreateFailed (InvalidLabel (JStr "a"))))
      (json_setup_calls ex_doc_badlabel ++ [CAdd (JArr [num_Z 1; num_Z 2; num_Z 3]) (num_Z 7) false])
      ltac:(vm_compute; reflexivity)) as [ext [Hext _]].
    exists ext. exact Hext.
  - destruct (proj1 (loaders_only_append_engine_calls accept_all []) ex_bin_truncated
      (Err (SizeMismatch 72 40)) [] ltac:(vm_compute; reflexivity)) as [ext [Hext _]].
    exists ext. exact Hext.
Defined.





Lemma read_vectors_ok_calls : forall eng B d i k off h u h',
  read_vectors eng B d i k off h = (Ok u, h') ->
  exists adds, h' = h ++ adds /\ length adds = k /\
               Forall (fun c => exists p l, c = CAdd p l false) adds.
Proof.
  intros eng B d i k. revert i.
  induction k as [|k IH]; intros i off h u h' H; cbn [read_vectors] in H.
  - unfold ret in H. inversion H; subst. exists []. rewrite app_nil_r. auto.
  - destruct (off + 4 >? blen B); [discriminate|].
    unfold mbind, lift, hnsw in H.
    destruct (readUInt32LE B off) as [l|]; [|discriminate].
    destruct (read_point B i 0 (Z.to_nat d) (off + 4)) as [pr|]; [|discriminate].
    destruct (eng h _); [discriminate|].
    apply IH in H as [adds [-> [Hlen Hadds]]].
    exists (CAdd (JArr (map JNum (fst pr))) (num_Z l) false :: adds).
    split; [rewrite <- app_assoc; reflexivity|split; [simpl; lia|]].
    constructor; [do 2 eexists; reflexivity|exact Hadds].
Qed.

(** When the binary loader succeeds, the file passed every header check,
    the returned metadata is the header's fields as stored, with no default
    substituted (a stored 0 stays 0), and the only hnswlib calls made are the
    constructor, [initIndex] with those same fields, and one [addPoint]
    (never replacing deleted points) per declared vector. *)
Theorem loadIndexBinary_success_from_header : forall eng B h md h',
  loadIndexBinary eng B h = (Ok md, h') ->
  let d := hdr_u32 B 2 in
  let n := hdr_u32 B 22 in
  hdr_u8 B 0 = 1 /\ 1 <= d <= 100000 /\ 0 <= n <= 100000000 /\
  40 + n * (4 + d * 4) <= blen B /\
  md = {| meta_spaceName := JStr (space_name (hdr_u8 B 1));
          meta_numDimensions := num_Z d;
          meta_maxElements := num_Z (hdr_u32 B 6);
          meta_m := num_Z (hdr_u32 B 10);
          meta_efConstruction := num_Z (hdr_u32 B 14);
          meta_randomSeed := num_Z (hdr_u32 B 18) |} /\
  exists adds,
    h' = h ++ [CNew (JStr (space_name (hdr_u8 B 1))) (num_Z d);
               CInit (num_Z (hdr_u32 B 6)) (num_Z (hdr_u32 B 10))
                     (num_Z (hdr_u32 B 14)) (num_Z (hdr_u32 B 18))] ++ adds /\
    length adds = Z.to_nat n /\
    Forall (fun c => exists p l, c = CAdd p l false) adds.
Proof.
  intros eng B h md h' H d n.
  destruct (Z.lt_ge_cases (blen B) 40) as [Hs|Hs].
  - unfold loadIndexBinary in H. cbv zeta in H.
    rewrite (proj2 (Z.ltb_lt _ _) Hs) in H. discriminate.
  - rewrite loadIndexBinary_unfold in H by exact Hs. cbv zeta in H. fold d n in H.
    destruct (hdr_u8 B 0 =? 1) eqn:E0; [|discriminate].
    destruct ((d <=? 0) || (100000 <? d)) eqn:E1; [discriminate|].
    destruct ((n <? 0) || (100000000 <? n)) eqn:E2; [discriminate|].
    destruct (blen B <? 40 + n * (4 + d * 4)) eqn:E3; [discriminate|].
    apply Z.eqb_eq in E0. cbv [negb] in H.
    apply orb_false_iff in E1 as [E1 E1']. apply orb_false_iff in E2 as [E2 E2'].
    apply Z.leb_gt in E1. apply Z.ltb_ge in E1', E2, E2', E3.
    cbv [try_recreate mbind hnsw ret] in H.
    destruct (eng h _); [discriminate|].
    match type of H with context [eng ?a ?b] => destruct (eng a b) end; [discriminate|].
    destruct (read_vectors eng B d 0 (Z.to_nat n) 40 _) as [[u|e] h2] eqn:Er;
      [|discriminate].
    apply read_vectors_ok_calls in Er as [adds [-> [Hlen Hadds]]].
    injection H as Hmd Hh. subst md h'.
    repeat split; try lia; try assumption.
    exists adds. split; [rewrite <- !app_assoc; reflexivity|auto].
Qed.

Lemma loadIndexBinary_success_from_header_witness :
  exists md h', loadIndexBinary accept_all ex_bin [] = (Ok md, h') /\
    hdr_u32 ex_bin 10 = 16 /\
    md = {| meta_spaceName := JStr (space_name (hdr_u8 ex_bin 1));
            meta_numDimensions := num_Z (hdr_u32 ex_bin 2);
            meta_maxElements := num_Z (hdr_u32 ex_bin 6);
            meta_m := num_Z (hdr_u32 ex_bin 10);
            meta_efConstruction := num_Z (hdr_u32 ex_bin 14);
            meta_randomSeed := num_Z (hdr_u32 ex_bin 18) |}.
Proof.
  destruct (loadIndexBinary accept_all ex_bin []) as [r h'] eqn:E.
  destruct r as [md|e]; [|vm_compute in E; discriminate].
  exists md, h'. split; [reflexivity|split; [vm_compute; reflexivity|]].
  exact (proj1 (proj2 (proj2 (proj2 (proj2
           (loadIndexBinary_success_from_header accept_all ex_bin [] md h' E)))))).
Defined.

Lemma rbind_agree : forall {A B} (R : A -> A -> Prop) (S : B -> B -> Prop) r1 r2 f1 f2,
  res_agree R r1 r2 -> (forall a1 a2, R a1 a2 -> res_agree S (f1 a1) (f2 a2)) ->
  res_agree S (rbind r1 f1) (rbind r2 f2).
Proof.
  intros A B R S [a1|e1] [a2|e2] f1 f2 H Hf; simpl in *; try contradiction; auto.
Qed.

Lemma res_agree_refl : forall {A} (r : result A), res_agree eq r r.
Proof. intros A [a|e]; reflexivity. Qed.

Lemma res_agree_eq : forall {A} (r1 r2 : result A), res_agree eq r1 r2 -> r1 = r2.
Proof. intros A [a1|e1] [a2|e2] H; simpl in H; subst; easy. Qed.

Lemma buf_set_agree : forall k b1 b2 bs,
  agree k b1 b2 -> (k + length bs <= length b1)%nat ->
  agree (k + length bs) (buf_set b1 k bs) (buf_set b2 k bs).
Proof.
  intros k b1 b2 bs [Hl Hf] Hk. unfold buf_set. split.
  - rewrite !length_app, !length_firstn, !length_skipn. lia.
  - assert (F : forall b : buffer, (k + length bs <= length b)%nat ->
              firstn (k + length bs) (firstn k b ++ bs ++ skipn (k + length bs) b) =
              firstn k b ++ bs).
    { intros b Hb. rewrite firstn_app, firstn_firstn, length_firstn.
      replace (Init.Nat.min (k + length bs) k) with k by lia.
      replace (k + length bs - Init.Nat.min k (length b))%nat with (length bs) by lia.
      rewrite firstn_app, firstn_all, Nat.sub_diag, firstn_O, app_nil_r. reflexivity. }
    rewrite !F, Hf by lia. reflexivity.
Qed.

Lemma write_bytes_agree : forall k b1 b2 bs, agree k b1 b2 ->
  res_agree (agree (k + length bs))
    (write_bytes b1 (Z.of_nat k) bs) (write_bytes b2 (Z.of_nat k) bs).
Proof.
  intros k b1 b2 bs Ha. unfold write_bytes, blen.
  pose proof (proj1 Ha) as Hl. rewrite <- Hl.
  destruct ((0 <=? Z.of_nat k) && (Z.of_nat k + Z.of_nat (length bs) <=? Z.of_nat (length b1)))
    eqn:E; simpl; [|reflexivity].
  apply andb_prop in E as [_ E]. apply Z.leb_le in E. rewrite Nat2Z.id.
  apply buf_set_agree; [exact Ha|lia].
Qed.

Lemma writeUInt8_agree : forall k b1 b2 v, agree k b1 b2 ->
  res_agree (agree (k + 1)) (writeUInt8 b1 v (Z.of_nat k)) (writeUInt8 b2 v (Z.of_nat k)).
Proof.
  intros k b1 b2 v Ha. unfold writeUInt8.
  destruct (out_of_range _ _); [reflexivity|].
  exact (write_bytes_agree k b1 b2 _ Ha).
Qed.

Lemma writeUInt32LE_agree : forall k b1 b2 v, agree k b1 b2 ->
  res_agree (agree (k + 4)) (writeUInt32LE b1 v (Z.of_nat k)) (writeUInt32LE b2 v (Z.of_nat k)).
Proof.
  intros k b1 b2 v Ha. unfold writeUInt32LE.
  destruct (out_of_range _ _); [reflexivity|].
  exact (write_bytes_agree k b1 b2 _ Ha).
Qed.

Lemma writeFloatLE_agree : forall k b1 b2 v, agree k b1 b2 ->
  res_agree (agree (k + 4)) (writeFloatLE b1 v (Z.of_nat k)) (writeFloatLE b2 v (Z.of_nat k)).
Proof.
  intros k b1 b2 v Ha. unfold writeFloatLE.
  exact (write_bytes_agree k b1 b2 _ Ha).
Qed.

Lemma fill0_agree : forall k j b1 b2, agree k b1 b2 ->
  res_agree (agree (k + j))
    (fill0 b1 (Z.of_nat k) (Z.of_nat k + Z.of_nat j))
    (fill0 b2 (Z.of_nat k) (Z.of_nat k + Z.of_nat j)).
Proof.
  intros k j b1 b2 Ha. unfold fill0, blen.
  pose proof (proj1 Ha) as Hl. rewrite <- Hl.
  destruct ((0 <=? Z.of_nat k) && (Z.of_nat k <=? Z.of_nat k + Z.of_nat j) &&
            (Z.of_nat k + Z.of_nat j <=? Z.of_nat (length b1))) eqn:E; simpl; [|reflexivity].
  apply andb_prop in E as [_ E]. apply Z.leb_le in E. rewrite Nat2Z.id.
  replace (Z.to_nat (Z.of_nat k + Z.of_nat j - Z.of_nat k)) with j by lia.
  pose proof (buf_set_agree k b1 b2 (repeat 0 j) Ha) as H.
  rewrite repeat_length in H. apply H. lia.
Qed.

Lemma write_point_agree : forall pt k b1 b2, agree k b1 b2 ->
  res_agree (fun x y => snd x = Z.of_nat (k + 4 * length pt) /\ snd y = snd x /\
                        agree (k + 4 * length pt) (fst x) (fst y))
    (write_point b1 (Z.of_nat k) pt) (write_point b2 (Z.of_nat k) pt).
Proof.
  induction pt as [|v pt IH]; intros k b1 b2 Ha; cbn [write_point].
  - simpl. rewrite Nat.add_0_r. auto.
  - destruct (negb (is_number v) || negb (num_finite (to_number v))); [reflexivity|].
    apply (rbind_agree _ _ _ _ _ _ (writeFloatLE_agree k b1 b2 v Ha)).
    intros a1 a2 Ha'. replace (Z.of_nat k + 4) with (Z.of_nat (k + 4)) by lia.
    specialize (IH (k + 4)%nat a1 a2 Ha').
    replace (k + 4 * length (v :: pt))%nat with (k + 4 + 4 * length pt)%nat by (simpl; lia).
    exact IH.
Qed.

Lemma write_vectors_agree : forall d vs k b1 b2, agree k b1 b2 ->
  res_agree (fun x y => snd x = Z.of_nat k + Z.of_nat (length vs) * (4 + 4 * d) /\
                        snd y = snd x /\ agree (Z.to_nat (snd x)) (fst x) (fst y))
    (write_vectors d b1 (Z.of_nat k) vs) (write_vectors d b2 (Z.of_nat k) vs).
Proof.
  intros d. induction vs as [|[label pt] vs IH]; intros k b1 b2 Ha; cbn [write_vectors].
  - simpl. rewrite Z.add_0_r, Nat2Z.id. auto.
  - destruct (negb (Z.of_nat (length pt) =? d)) eqn:Ed; [reflexivity|].
    apply negb_false_iff, Z.eqb_eq in Ed.
    apply (rbind_agree _ _ _ _ _ _ (writeUInt32LE_agree k b1 b2 label Ha)).
    intros a1 a2 Ha'. replace (Z.of_nat k + 4) with (Z.of_nat (k + 4)) by lia.
    apply (rbind_agree _ _ _ _ _ _ (write_point_agree pt (k + 4) a1 a2 Ha')).
    intros [c1 o1] [c2 o2] [Ho [Ho' Hc]]. cbn [fst snd] in *. subst o2 o1.
    specialize (IH _ _ _ Hc).
    destruct (write_vectors d c1 _ vs) as [[x1 p1]|e1], (write_vectors d c2 _ vs) as [[x2 p2]|e2];
      cbn [res_agree rbind fst snd] in IH |- *; try exact IH.
    destruct IH as [Hp IH]. split; [|exact IH].
    rewrite Hp. cbn [length]. subst d. nia.
Qed.

Lemma saveIndexBinary_body_agree : forall g1 g2 gm md code d vs,
  let size := 40 + Z.of_nat (length vs) * (4 + d * 4) in
  res_agree (agree (Z.to_nat size))
    (saveIndexBinary_body g1 gm md code d size vs)
    (saveIndexBinary_body g2 gm md code d size vs).
Proof.
  intros g1 g2 gm md code d vs size. unfold saveIndexBinary_body. cbv zeta.
  assert (H0 : agree 0 (allocUnsafe g1 size) (allocUnsafe g2 size))
    by (split; [rewrite !allocUnsafe_len; reflexivity|reflexivity]).
  apply (rbind_agree _ _ _ _ _ _ (writeUInt8_agree 0 _ _ _ H0)); intros a1 a2 H1.
  apply (rbind_agree _ _ _ _ _ _ (writeUInt8_agree 1 _ _ _ H1)); intros b1 b2 H2.
  apply (rbind_agree _ _ _ _ _ _ (writeUInt32LE_agree 2 _ _ _ H2)); intros c1 c2 H3.
  apply (rbind_agree eq _ _ _ _ _ (res_agree_refl _)); intros me ? <-.
  apply (rbind_agree _ _ _ _ _ _ (writeUInt32LE_agree 6 _ _ _ H3)); intros e1 e2 H4.
  apply (rbind_agree _ _ _ _ _ _ (writeUInt32LE_agree 10 _ _ _ H4)); intros f1 f2 H5.
  apply (rbind_agree _ _ _ _ _ _ (writeUInt32LE_agree 14 _ _ _ H5)); intros i1 i2 H6.
  apply (rbind_agree _ _ _ _ _ _ (writeUInt32LE_agree 18 _ _ _ H6)); intros j1 j2 H7.
  apply (rbind_agree _ _ _ _ _ _ (writeUInt32LE_agree 22 _ _ _ H7)); intros k1 k2 H8.
  apply (rbind_agree _ _ _ _ _ _ (fill0_agree 26 14 _ _ H8)); intros l1 l2 H9.
  apply (rbind_agree _ _ _ _ _ _ (write_vectors_agree d vs 40 _ _ H9)).
  intros x y [Hx [_ Ha]]. cbn [res_agree].
  replace (Z.to_nat size) with (Z.to_nat (snd x)) by (rewrite Hx; subst size; f_equal; lia).
  exact Ha.
Qed.

(** The binary encoder's result never depends on the initial content of the
    buffer it takes from [Buffer.allocUnsafe]: every byte is written before
    the buffer is returned (the dimension check makes each record fill its
    slot exactly), so no uninitialised memory reaches the file, and the same
    error is raised whatever that content is. *)
Theorem saveIndexBinary_ignores_allocated_content : forall g1 g2 gm md d vs,
  saveIndexBinary g1 gm md d vs = saveIndexBinary g2 gm md d vs.
Proof.
  intros g1 g2 gm md d vs. unfold saveIndexBinary.
  destruct (get md "spaceName") as [sp|e]; [|reflexivity]. cbn [rbind]. cbv zeta.
  pose proof (saveIndexBinary_body_agree g1 g2 gm md (space_code (js_or sp (JStr "l2"))) d vs)
    as H. cbv zeta in H.
  destruct (saveIndexBinary_body g1 _ _ _ _ _ _) as [o1|e1] eqn:E1,
           (saveIndexBinary_body g2 _ _ _ _ _ _) as [o2|e2] eqn:E2;
    cbn [res_agree] in H; try contradiction; [|subst; reflexivity].
  apply saveIndexBinary_body_len in E1, E2.
  destruct H as [_ H]. rewrite !firstn_all2 in H by lia. rewrite H. reflexivity.
Qed.



(** When [saveIndexToFile] succeeds, what it returns is what [fs.writeFile]
    accepted, in the format the filename selects: bytes for a name ending
    in [.bin] or [.dat], a text document otherwise; the filename is then a
    non-blank string and the index reported a non-zero count. *)
Theorem saveIndexToFile_success_written : forall garbage fs_write ix filename metadata w,
  saveIndexToFile garbage fs_write ix filename metadata = Ok w ->
  fs_write w = None /\
  validateFilename filename = Ok tt /\
  (exists c, call_method ix "getCurrentCount" (ix_getCurrentCount ix) = Ok c /\
             is_zero c = false) /\
  match w with
  | WBytes _ => is_binary (filename_str filename) = true
  | WText _ => is_binary (filename_str filename) = false
  end.
Proof.
  intros garbage fs_write ix filename metadata w H.
  unfold saveIndexToFile in H.
  destruct (validateIndex _); [|discriminate]. cbn [rbind] in H.
  destruct (validateFilename filename) as [[]|]; [|discriminate]. cbn [rbind] in H.
  destruct (call_method ix "getNumDimensions" _); [|discriminate]. cbn [rbind] in H.
  destruct (call_method ix "getCurrentCount" _) as [c|]; [|discriminate]. cbn [rbind] in H.
  destruct (is_zero c) eqn:Ez; [discriminate|].
  destruct (extractVectorsFromIndex ix); [|discriminate]. cbn [rbind] in H.
  destruct (is_binary (filename_str filename)) eqn:Eb.
  - destruct (saveIndexBinary _ _ _ _ _) as [buf|]; [|discriminate]. cbn [rbind] in H.
    destruct (fs_write (WBytes buf)) eqn:Ew; [discriminate|].
    injection H as <-. eauto 6.
  - destruct (saveIndexJSON _ _ _ _) as [data|]; [|discriminate]. cbn [rbind] in H.
    destruct (fs_write (WText data)) eqn:Ew; [discriminate|].
    injection H as <-. eauto 6.
Qed.

Lemma saveIndexToFile_success_written_witness :
  exists out, saveIndexToFile [] (fun _ => None) ex_index (JStr "x.bin") ex_metadata = Ok (WBytes out) /\
              is_binary (filename_str (JStr "x.bin")) = true.
Proof.
  destruct (saveIndexToFile [] (fun _ => None) ex_index (JStr "x.bin") ex_metadata) as [w|e] eqn:E;
    [|vm_compute in E; discriminate].
  destruct (saveIndexToFile_success_written _ _ _ _ _ _ E) as [_ [_ [_ Hw]]].
  destruct w as [data|out]; [vm_compute in E; discriminate|].
  exists out. split; [reflexivity|exact Hw].
Defined.
